(** * amzn-sfp: flat EEPROM view of SFP+/QSFP+/QSFP28/QSFP-DD modules

    A shallow embedding of [drivers/misc/sfp/amzn-sfp.c] and the properties
    of its address translation, page cache and transfer executor.

    The driver talks to three things it does not own: the I2C adapter
    ([i2c_transfer]), the kernel clock ([jiffies]) and the scheduler
    ([usleep_range]).  They are modelled by a machine state holding the
    clock, and by an oracle that gives, for the n-th blocking call, what the
    adapter returned and how many jiffies went by.  Everything the driver
    does to the outside is recorded as a list of events.

    Accesses are taken one at a time: the lock is free when an access asks
    for it, and the clock moves while the driver is blocked in the adapter
    or asleep, and between accesses.  The bytes a data read brings back go
    from the adapter to the caller's buffer without the driver looking at
    them, and are left out. *)

From Stdlib Require Import ZArith List Bool Lia Sorted.
From Stdlib Require String.
Import ListNotations.
Local Open Scope Z_scope.

(** ** C integer conversions (LP64) *)

Module CInt.

Definition to_u8 (x : Z) : Z := x mod 256.
Definition to_u16 (x : Z) : Z := x mod 65536.
Definition to_ulong (x : Z) : Z := x mod 18446744073709551616.
Definition to_schar (x : Z) : Z := (x + 128) mod 256 - 128.
Definition to_int (x : Z) : Z := (x + 2147483648) mod 4294967296 - 2147483648.
Definition to_long (x : Z) : Z :=
  (x + 9223372036854775808) mod 18446744073709551616 - 9223372036854775808.

End CInt.
Import CInt.

(** ** What the target fixes *)

(** [HZ] is the kernel's tick rate and [msecs_to_jiffies] its conversion.
    [char_is_signed] is the signedness of plain [char] on the target: the
    driver keeps page numbers in [char iobuf[]] and compares them with the
    [int cur_page].  Plain [char] is signed on x86 and unsigned on arm64 for
    the kernels this driver is written against (two-argument [probe],
    [remove] returning [int]), which do not yet build with
    [-funsigned-char]. *)
Record platform : Type := {
  HZ : Z;
  char_is_signed : bool;
  msecs_to_jiffies : Z -> Z
}.

Definition to_char (P : platform) (x : Z) : Z :=
  if char_is_signed P then to_schar x else to_u8 x.

(** The two sysctl knobs, [amzn-sfp-page-retention] and
    [amzn-sfp-page-load-wait-ms]. *)
Record tunables : Type := {
  amzn_sfp_page_retention : Z;
  amzn_sfp_page_load_wait_ms : Z
}.

Definition default_tunables : tunables :=
  {| amzn_sfp_page_retention := 1; amzn_sfp_page_load_wait_ms := 4 |}.

(** ** Constants of the driver *)

Definition AMZN_SFP_TYPE_SFP_PLUS : Z := 1.
Definition AMZN_SFP_TYPE_QSFP_PLUS : Z := 2.
Definition AMZN_SFP_TYPE_QSFP28 : Z := 3.
Definition AMZN_SFP_TYPE_QSFP_DD : Z := 4.

Definition AMZN_SFP_FULL_SIZE : Z := 256.
Definition AMZN_SFP_HALF_SIZE : Z := Z.shiftr AMZN_SFP_FULL_SIZE 1.
Definition AMZN_QSFP_PAGE_SELECT : Z := 127.

Definition I2C_M_RD : Z := 1.

Definition EINVAL : Z := 22.
Definition ENOSPC : Z := 28.
Definition ESPIPE : Z := 29.
Definition EPIPE : Z := 32.

(** ** Data *)

(** [struct amzn_sfp_softc], with [attr.size] and [client->addr] inlined. *)
Record amzn_sfp_softc : Type := {
  attr_size : Z;
  client_addr : Z;
  sfp_type : Z;
  cur_page : Z;
  cur_page_ts : Z
}.

Definition set_page (s : amzn_sfp_softc) (p : Z) : amzn_sfp_softc :=
  {| attr_size := attr_size s; client_addr := client_addr s;
     sfp_type := sfp_type s; cur_page := p; cur_page_ts := cur_page_ts s |}.

Definition set_page_ts (s : amzn_sfp_softc) (t : Z) : amzn_sfp_softc :=
  {| attr_size := attr_size s; client_addr := client_addr s;
     sfp_type := sfp_type s; cur_page := cur_page s; cur_page_ts := t |}.

(** [struct i2c_msg]; [buf] holds the bytes sent, and is empty for a message
    that reads. *)
Record i2c_msg : Type := {
  addr : Z;
  flags : Z;
  len : Z;
  buf : list Z
}.

(** The three places where the driver calls [i2c_transfer]. *)
Inductive phase : Type :=
| PageVerify   (* line 197: read of the page select register *)
| PageSelect   (* line 235: write of the page select register *)
| DataPhase.   (* line 295: the transfer the caller asked for *)

Inductive event : Type :=
| EvLock
| EvUnlock
| EvTransfer (ph : phase) (msgs : list i2c_msg) (rc : Z)
| EvNotice (observed believed : Z)
| EvSleep (min_us max_us : Z).

(** What the outside answers to a blocking call: the return value of
    [i2c_transfer], the byte it stored for a one-byte read, and the jiffies
    that went by. *)
Record reply : Type := {
  rc : Z;
  rx : Z;
  ticks : Z
}.

Record machine : Type := {
  sc : amzn_sfp_softc;
  jiffies : Z;
  ncall : nat
}.

(** ** A state-and-trace monad *)

Definition M (A : Type) : Type := machine -> A * machine * list event.

Definition ret {A : Type} (a : A) : M A := fun m => (a, m, []).

Definition bind {A B : Type} (x : M A) (f : A -> M B) : M B :=
  fun m =>
    let '(a, m1, t1) := x m in
    let '(b, m2, t2) := f a m1 in
    (b, m2, t1 ++ t2).

Declare Scope drv_scope.
Delimit Scope drv_scope with drv.
Notation "x <- c1 ;; c2" := (bind c1 (fun x => c2))
  (at level 61, c1 at next level, right associativity) : drv_scope.
Notation "c1 ;; c2" := (bind c1 (fun _ => c2))
  (at level 61, right associativity) : drv_scope.
Local Open Scope drv_scope.

Definition emit (e : event) : M unit := fun m => (tt, m, [e]).
Definition get_sc : M amzn_sfp_softc := fun m => (sc m, m, []).
Definition read_jiffies : M Z := fun m => (jiffies m, m, []).
Definition update_sc (f : amzn_sfp_softc -> amzn_sfp_softc) : M unit :=
  fun m => (tt, {| sc := f (sc m); jiffies := jiffies m; ncall := ncall m |}, []).

Definition rt_mutex_lock : M unit := emit EvLock.
Definition rt_mutex_unlock : M unit := emit EvUnlock.
Definition dev_notice (observed believed : Z) : M unit :=
  emit (EvNotice observed believed).

(** ** linux/jiffies.h

    [time_after_eq(a, b)] is [(long)((a) - (b)) >= 0], [time_before_eq(a, b)]
    is [time_after_eq(b, a)], and [time_in_range(a, b, c)] holds when [a] is
    in [[b, c]], both ends included. *)

Definition time_after_eq (a b : Z) : bool := to_long (a - b) >=? 0.
Definition time_before_eq (a b : Z) : bool := time_after_eq b a.
Definition time_in_range (a b c : Z) : bool :=
  time_after_eq a b && time_before_eq a c.

(** ** The driver *)

(** The messages of lines 185-195: write the register number, read one
    byte. *)
Definition verify_msgs (addr : Z) : list i2c_msg :=
  [ {| addr := addr; flags := 0; len := 1; buf := [AMZN_QSFP_PAGE_SELECT] |};
    {| addr := addr; flags := I2C_M_RD; len := 1; buf := [] |} ].

(** The message of lines 228-233: the register number and the page, as the
    byte that goes on the wire. *)
Definition select_msgs (addr page : Z) : list i2c_msg :=
  [ {| addr := addr; flags := 0; len := 2;
       buf := [AMZN_QSFP_PAGE_SELECT; page] |} ].


Section Driver.

Variable P : platform.
Variable T : tunables.
Variable bus : nat -> reply.

Definition blocked (r : reply) (m : machine) : machine :=
  {| sc := sc m; jiffies := to_ulong (jiffies m + ticks r);
     ncall := S (ncall m) |}.

Definition i2c_transfer (ph : phase) (msgs : list i2c_msg) : M reply :=
  fun m => let r := bus (ncall m) in (r, blocked r m, [EvTransfer ph msgs (rc r)]).

Definition usleep_range (lo hi : Z) : M unit :=
  fun m => let r := bus (ncall m) in (tt, blocked r m, [EvSleep lo hi]).

(** The test of lines 176-178: the belief is unknown, or [now] is outside
    the retention window that starts at the time stamp. *)
Definition page_is_stale (s : amzn_sfp_softc) (now : Z) : bool :=
  let ts := to_ulong (cur_page_ts s + to_int (amzn_sfp_page_retention T * HZ P)) in
  (cur_page s =? -1) || negb (time_in_range now (cur_page_ts s) ts).

(** The test of lines 289-290: [now] is inside the settle window that
    starts at the time stamp. *)
Definition settle_due (s : amzn_sfp_softc) (now : Z) : bool :=
  let ts := to_ulong (cur_page_ts s
                      + msecs_to_jiffies P (amzn_sfp_page_load_wait_ms T)) in
  time_in_range now (cur_page_ts s) ts.

(** Lines 291-292. *)
Definition settle_sleep : M unit :=
  let ts := to_ulong (to_int (amzn_sfp_page_load_wait_ms T * 1000)) in
  usleep_range ts (to_ulong (ts + 1000)).

(** Lines 176-214.  [Some e]: the function has unlocked and returns [e].
    Only a negative return of [i2c_transfer] counts as a failure here; on
    any other the driver takes the page from [iobuf[2]], whatever the adapter
    left there ([rx]). *)
Definition verify_page (addr : Z) : M (option Z) :=
  s <- get_sc ;;
  now <- read_jiffies ;;
  if page_is_stale s now then
    r <- i2c_transfer PageVerify (verify_msgs addr) ;;
    if rc r <? 0 then
      update_sc (fun s => set_page s (-1)) ;;
      rt_mutex_unlock ;;
      ret (Some (rc r))
    else
      let iobuf2 := to_char P (rx r) in
      (if negb (iobuf2 =? cur_page s) then
         (if negb (cur_page s =? -1) then dev_notice iobuf2 (cur_page s) else ret tt) ;;
         update_sc (fun s => set_page s iobuf2)
       else ret tt) ;;
      j <- read_jiffies ;;
      update_sc (fun s => set_page_ts s j) ;;
      ret None
  else ret None.

(** Lines 216-245. *)
Definition select_page (addr iobuf1 : Z) : M (option Z) :=
  s <- get_sc ;;
  if iobuf1 =? cur_page s then ret None
  else
    r <- i2c_transfer PageSelect (select_msgs addr (to_u8 iobuf1)) ;;
    if rc r <? 0 then
      update_sc (fun s => set_page s (-1)) ;;
      rt_mutex_unlock ;;
      ret (Some (rc r))
    else
      update_sc (fun s => set_page s iobuf1) ;;
      j <- read_jiffies ;;
      update_sc (fun s => set_page_ts s j) ;;
      ret None.

(** The page cache, lines 176-245: [page] is the upper page wanted,
    [iobuf[1]] in the source holds it as a [char]. *)
Definition ensure_page (addr page : Z) : M (option Z) :=
  let iobuf1 := to_char P page in
  v <- verify_page addr ;;
  match v with
  | Some e => ret (Some e)
  | None => select_page addr iobuf1
  end.

Inductive xlate : Type :=
| Abort (err : Z)
| Go (addr reg len : Z).

Definition is_qsfp (t : Z) : bool :=
  (t =? AMZN_SFP_TYPE_QSFP_PLUS) || (t =? AMZN_SFP_TYPE_QSFP28)
  || (t =? AMZN_SFP_TYPE_QSFP_DD).

(** Lines 120-121, 137-138 and 152-153: [if (len + reg > limit) len = limit
    - reg], in [size_t] arithmetic. *)
Definition clamp_to (limit len reg : Z) : Z :=
  if to_ulong (len + reg) >? limit then to_ulong (limit - reg) else len.

(** The switch statement, lines 112-254.  [ofs] is not negative here, so
    C's [/] and [%] are [Z.div] and [Z.modulo]. *)
Definition amzn_sfp_translate (addr ofs len : Z) : M xlate :=
  s <- get_sc ;;
  if sfp_type s =? AMZN_SFP_TYPE_SFP_PLUS then
    let addr := to_u16 (addr + ofs / AMZN_SFP_FULL_SIZE) in
    let reg := to_u8 (ofs mod AMZN_SFP_FULL_SIZE) in
    ret (Go addr reg (clamp_to AMZN_SFP_FULL_SIZE len reg))
  else if is_qsfp (sfp_type s) then
    if ofs <? AMZN_SFP_HALF_SIZE then
      let reg := to_u8 ofs in
      ret (Go addr reg (clamp_to AMZN_SFP_HALF_SIZE len reg))
    else
      let page := ofs / AMZN_SFP_HALF_SIZE - 1 in
      let reg := to_u8 (ofs mod AMZN_SFP_HALF_SIZE + AMZN_SFP_HALF_SIZE) in
      let len := clamp_to AMZN_SFP_FULL_SIZE len reg in
      r <- ensure_page addr page ;;
      match r with
      | Some e => ret (Abort e)
      | None => ret (Go addr reg len)
      end
  else
    ret (Go addr (to_u8 ofs) len).

(** The messages of the data phase, lines 264-284. *)
Definition data_msgs (addr flags reg len : Z) (data : list Z) : list i2c_msg :=
  if flags =? I2C_M_RD then
    [ {| addr := addr; flags := 0; len := 1; buf := [reg] |};
      {| addr := addr; flags := flags; len := to_u16 len; buf := [] |} ]
  else
    [ {| addr := addr; flags := 0; len := to_u16 (len + 1);
         buf := reg :: firstn (Z.to_nat len) data |} ].

(** Lines 299-303: what the function returns after the data phase, from
    what [i2c_transfer] returned. *)
Definition data_result (rc nmsgs len : Z) : Z :=
  if rc <? 0 then rc else if negb (rc =? nmsgs) then - EPIPE else len.

(** Lines 261-262. *)
Definition chunk (len : Z) : Z := if len >? 64 then 64 else len.

(** Lines 256-303. *)
Definition amzn_sfp_execute (addr reg len flags : Z) (data : list Z) : M Z :=
  let len := chunk len in
  let msgs := data_msgs addr flags reg len data in
  let nmsgs := Z.of_nat (length msgs) in
  s <- get_sc ;;
  now <- read_jiffies ;;
  (if settle_due s now then settle_sleep else ret tt) ;;
  r <- i2c_transfer DataPhase msgs ;;
  rt_mutex_unlock ;;
  ret (data_result (rc r) nmsgs len).

(** Lines 100-106.  [ofs] is a [loff_t], [len] and [attr.size] are
    [size_t]: the two comparisons against the size are unsigned, and the sum
    is taken modulo 2^64.  [Some e]: the function returns [e]. *)
Definition request_check (s : amzn_sfp_softc) (ofs len : Z) : option Z :=
  if (ofs <? 0) || (to_ulong ofs >=? attr_size s) then Some (- ESPIPE)
  else if len =? 0 then Some (- EINVAL)
  else if to_ulong (ofs + len) >? attr_size s then Some (- ENOSPC)
  else None.

(** [amzn_sfp_rw], lines 88-304. *)
Definition amzn_sfp_rw (data : list Z) (ofs len flags : Z) : M Z :=
  s <- get_sc ;;
  match request_check s ofs len with
  | Some e => ret e
  | None =>
      rt_mutex_lock ;;
      x <- amzn_sfp_translate (client_addr s) ofs len ;;
      match x with
      | Abort e => ret e
      | Go addr reg len => amzn_sfp_execute addr reg len flags data
      end
  end.

Definition amzn_sfp_read (data : list Z) (ofs len : Z) : M Z :=
  amzn_sfp_rw data ofs len I2C_M_RD.

Definition amzn_sfp_write (data : list Z) (ofs len : Z) : M Z :=
  amzn_sfp_rw data ofs len 0.

End Driver.

(** [amzn_sfp_probe], lines 338-377: the session of a freshly attached
    module ([devm_kzalloc] zeroes the time stamp). *)
Definition probe_size (t : Z) : Z :=
  if t =? AMZN_SFP_TYPE_SFP_PLUS then 2 * AMZN_SFP_FULL_SIZE
  else if is_qsfp t then 257 * AMZN_SFP_HALF_SIZE
  else AMZN_SFP_FULL_SIZE.

Definition amzn_sfp_probe (client_addr driver_data : Z) : amzn_sfp_softc :=
  let t := to_int driver_data in
  {| attr_size := probe_size t; client_addr := client_addr; sfp_type := t;
     cur_page := -1; cur_page_ts := 0 |}.

(** ** Observations on an access *)

Definition is_transfer (ph : phase) (e : event) : bool :=
  match e, ph with
  | EvTransfer PageVerify _ _, PageVerify => true
  | EvTransfer PageSelect _ _, PageSelect => true
  | EvTransfer DataPhase _ _, DataPhase => true
  | _, _ => false
  end.

Definition is_bus (e : event) : bool :=
  match e with EvTransfer _ _ _ => true | _ => false end.

Definition is_sleep (e : event) : bool :=
  match e with EvSleep _ _ => true | _ => false end.

Definition transfers (ph : phase) (tr : list event) : list event :=
  filter (is_transfer ph) tr.

Definition bus_events (tr : list event) : list event := filter is_bus tr.

Definition sleeps (tr : list event) : list event := filter is_sleep tr.

(** Register and payload length of the messages of a data phase: the
    register is the first byte sent; a read has a second message whose
    length is the payload, a write carries the payload after the register
    byte. *)
Definition msgs_reg (msgs : list i2c_msg) : option Z :=
  match msgs with
  | m :: _ => hd_error (buf m)
  | [] => None
  end.

Definition msgs_count (msgs : list i2c_msg) : Z :=
  match msgs with
  | [w] => len w - 1
  | [_; r] => len r
  | _ => 0
  end.

(** A request that passes the three checks of lines 101-106, read over the
    integers. *)
Definition valid_request (s : amzn_sfp_softc) (ofs len : Z) : Prop :=
  0 <= ofs < attr_size s /\ 0 < len /\ ofs + len <= attr_size s.

(** A session as [amzn_sfp_probe] makes it: the size follows the class, and
    the bus address is an I2C address (ten bits at most). *)
Definition session_ok (s : amzn_sfp_softc) : Prop :=
  attr_size s = probe_size (sfp_type s) /\ 0 <= client_addr s <= 1023.

(** Two targets to run the driver on. *)
Definition jiffies_of_msecs_hz250 (m : Z) : Z :=
  if to_int m <? 0 then 4611686018427387902 else (m + 3) / 4.

Definition x86_64 : platform :=
  {| HZ := 250; char_is_signed := true;
     msecs_to_jiffies := jiffies_of_msecs_hz250 |}.

Definition arm64 : platform :=
  {| HZ := 250; char_is_signed := false;
     msecs_to_jiffies := jiffies_of_msecs_hz250 |}.

(** An adapter that completes every transfer of [n] messages at once and
    reports [page] in the page select register. *)
Definition bus_ok (n page : Z) : nat -> reply :=
  fun _ => {| rc := n; rx := page; ticks := 0 |}.

Definition attached (s : amzn_sfp_softc) (now : Z) : machine :=
  {| sc := s; jiffies := now; ncall := 0 |}.

(** The events of the settle delay when the data phase starts at [now]. *)
Definition settle_events (P : platform) (T : tunables) (s : amzn_sfp_softc)
    (now : Z) : list event :=
  if settle_due P T s now then
    [EvSleep (to_ulong (to_int (amzn_sfp_page_load_wait_ms T * 1000)))
       (to_ulong (to_ulong (to_int (amzn_sfp_page_load_wait_ms T * 1000)) + 1000))]
  else [].

(** The adapter that answers the n-th blocking call by the n-th reply of a
    script, and by [last] once the script is over. *)
Definition bus_script (script : list reply) (last : reply) : nat -> reply :=
  fun n => nth n script last.

Definition qsfp28_on_page (page stamp : Z) : amzn_sfp_softc :=
  {| attr_size := 257 * 128; client_addr := 80;
     sfp_type := AMZN_SFP_TYPE_QSFP28; cur_page := page; cur_page_ts := stamp |}.

(** ** Attach, detach, load and unload

    The rest of the file: [amzn_sfp_probe] and [amzn_sfp_remove] on an I2C
    client, the table of device ids, and [amzn_sfp_init] and [amzn_sfp_exit]
    on the kernel's registries.  What the kernel answers (the allocation,
    [sysfs_create_bin_file], [i2c_add_driver], [register_sysctl]) is given to
    the functions as arguments. *)

Module Lifecycle.

Import String.

Definition ENOMEM : Z := 12.
Definition ENODEV : Z := 19.

(** [S_IWUSR | S_IRUGO], in octal 0200 and 0444. *)
Definition S_IWUSR : Z := 128.
Definition S_IRUGO : Z := 292.

(** [struct i2c_device_id]. *)
Record i2c_device_id : Type := {
  name : string;
  driver_data : Z
}.

(** Lines 406-412, without the empty entry that ends the table. *)
Definition amzn_sfp_ids : list i2c_device_id :=
  [ {| name := "sfp+"%string; driver_data := AMZN_SFP_TYPE_SFP_PLUS |};
    {| name := "qsfp+"%string; driver_data := AMZN_SFP_TYPE_QSFP_PLUS |};
    {| name := "qsfp28"%string; driver_data := AMZN_SFP_TYPE_QSFP28 |};
    {| name := "qsfp-dd"%string; driver_data := AMZN_SFP_TYPE_QSFP_DD |} ].

(** What [sysfs_create_bin_file] puts in the directory of the device: the
    name, mode and size of [sc->attr]. *)
Record bin_file : Type := {
  file_name : string;
  file_mode : Z;
  file_size : Z
}.

Inductive kmsg : Type :=
| WarnUnknownType (sfp_type : Z)    (* line 373 *)
| ErrCreateFile (error : Z).        (* line 383 *)

(** [struct i2c_client], as far as the driver uses it: the bus address, the
    client data, the sysfs directory of the device and the kernel log. *)
Record i2c_client : Type := {
  i2c_addr : Z;
  clientdata : option amzn_sfp_softc;
  sysfs : list bin_file;
  dmesg : list kmsg
}.

Definition eeprom : string := "eeprom"%string.

Definition is_known (t : Z) : bool :=
  (t =? AMZN_SFP_TYPE_SFP_PLUS) || is_qsfp t.

(** [amzn_sfp_probe], lines 324-388.  [alloc_ok] tells whether
    [devm_kzalloc] gave memory, [create_rc] is what [sysfs_create_bin_file]
    returned.  A null pointer is [None]. *)
Definition amzn_sfp_probe_client (alloc_ok : bool) (create_rc : Z)
    (client : option i2c_client) (id : option i2c_device_id)
    : Z * option i2c_client :=
  match client, id with
  | Some c, Some i =>
      if negb alloc_ok then (- ENOMEM, Some c)
      else
        let s := amzn_sfp_probe (i2c_addr c) (driver_data i) in
        let log := if is_known (sfp_type s) then dmesg c
                   else dmesg c ++ [WarnUnknownType (sfp_type s)] in
        let attr := {| file_name := eeprom;
                       file_mode := Z.lor S_IWUSR S_IRUGO;
                       file_size := attr_size s |} in
        if create_rc =? 0 then
          (0, Some {| i2c_addr := i2c_addr c; clientdata := Some s;
                      sysfs := sysfs c ++ [attr]; dmesg := log |})
        else
          (create_rc,
           Some {| i2c_addr := i2c_addr c; clientdata := Some s;
                   sysfs := sysfs c;
                   dmesg := log ++ [ErrCreateFile create_rc] |})
  | _, _ => (- EINVAL, client)
  end.

(** [sysfs_remove_bin_file]: the entry goes by its name. *)
Definition sysfs_remove (n : string) (dir : list bin_file) : list bin_file :=
  filter (fun f => negb (String.eqb (file_name f) n)) dir.

(** [amzn_sfp_remove], lines 390-404. *)
Definition amzn_sfp_remove (client : option i2c_client)
    : Z * option i2c_client :=
  match client with
  | None => (- EINVAL, None)
  | Some c =>
      match clientdata c with
      | None => (- ENODEV, Some c)
      | Some _ =>
          (0, Some {| i2c_addr := i2c_addr c; clientdata := None;
                      sysfs := sysfs_remove eeprom (sysfs c);
                      dmesg := dmesg c |})
      end
  end.

(** The registries of the kernel that loading and unloading touch: the I2C
    drivers by name, and the sysctl tables by directory and entry names. *)
Record kernel : Type := {
  i2c_drivers : list string;
  sysctl_tables : list (string * list string)
}.

(** Lines 67-84. *)
Definition amzn_sfp_sysctls : list string :=
  [ "amzn-sfp-page-retention"%string; "amzn-sfp-page-load-wait-ms"%string ].

(** Line 431: the table goes under "debug". *)
Definition sysctl_entry : string * list string :=
  ("debug"%string, amzn_sfp_sysctls).

Definition driver_name : string := "amzn-sfp"%string.

(** [amzn_sfp_init], lines 425-434.  [config_sysctl] is [CONFIG_SYSCTL],
    [add_rc] what [i2c_add_driver] returned, [sysctl_ok] whether
    [register_sysctl] gave a header (the driver drops it). *)
Definition amzn_sfp_init (config_sysctl : bool) (add_rc : Z)
    (sysctl_ok : bool) (k : kernel) : Z * kernel :=
  let drivers := if add_rc =? 0 then i2c_drivers k ++ [driver_name]
                 else i2c_drivers k in
  let tables := if config_sysctl && sysctl_ok
                then sysctl_tables k ++ [sysctl_entry]
                else sysctl_tables k in
  (add_rc, {| i2c_drivers := drivers; sysctl_tables := tables |}).

(** [amzn_sfp_exit], lines 436-439. *)
Definition amzn_sfp_exit (k : kernel) : kernel :=
  {| i2c_drivers :=
       filter (fun n => negb (String.eqb n driver_name)) (i2c_drivers k);
     sysctl_tables := sysctl_tables k |}.

(** Loading and unloading the module [n] times ([module_driver], line 441);
    a load that fails is not followed by an unload. *)
Fixpoint load_unload (config_sysctl : bool) (answers : list (Z * bool))
    (k : kernel) : kernel :=
  match answers with
  | [] => k
  | (add_rc, sysctl_ok) :: rest =>
      let '(rc, k1) := amzn_sfp_init config_sysctl add_rc sysctl_ok k in
      load_unload config_sysctl rest
        (if rc =? 0 then amzn_sfp_exit k1 else k1)
  end.

(** A client the core has just made, an id of the table, and a kernel
    with nothing registered. *)
Definition bare_client (a : Z) : i2c_client :=
  {| i2c_addr := a; clientdata := None; sysfs := []; dmesg := [] |}.

Definition qsfp28_id : i2c_device_id :=
  {| name := "qsfp28"%string; driver_data := AMZN_SFP_TYPE_QSFP28 |}.

Definition empty_kernel : kernel :=
  {| i2c_drivers := []; sysctl_tables := [] |}.

End Lifecycle.

(** ** More observations *)

(** The place of an event in an access: the lock, the read of the page
    select register, the notice, its write, the settle sleep, the data
    transfer, the unlock. *)
Definition rank (e : event) : Z :=
  match e with
  | EvLock => 0
  | EvTransfer PageVerify _ _ => 1
  | EvNotice _ _ => 2
  | EvTransfer PageSelect _ _ => 3
  | EvSleep _ _ => 4
  | EvTransfer DataPhase _ _ => 5
  | EvUnlock => 6
  end.

(** The values an [int cur_page] takes: -1, or what a [char] holds. *)
Definition belief_in_range (P : platform) (s : amzn_sfp_softc) : Prop :=
  if char_is_signed P then -128 <= cur_page s <= 127
  else -1 <= cur_page s <= 255.

(** The time stamp is an [unsigned long]. *)
Definition stamp_in_range (s : amzn_sfp_softc) : Prop :=
  0 <= cur_page_ts s < 18446744073709551616.

(** The bus address a transfer starts with. *)
Definition msgs_addr (msgs : list i2c_msg) : option Z :=
  option_map addr (hd_error msgs).

(** A caller of the file: what it asks for, with the knobs as they stand
    then and the jiffies gone by since the access before. *)
Record request : Type := {
  rq_tun : tunables;
  rq_data : list Z;
  rq_ofs : Z;
  rq_len : Z;
  rq_flags : Z;
  rq_idle : Z
}.

Definition idle (d : Z) (m : machine) : machine :=
  {| sc := sc m; jiffies := to_ulong (jiffies m + d); ncall := ncall m |}.

(** The accesses of a list of requests, one after the other, on one
    adapter. *)
Fixpoint serve (P : platform) (bus : nat -> reply) (rqs : list request)
    (m : machine) : machine :=
  match rqs with
  | [] => m
  | r :: rest =>
      let '(_, m1, _) :=
        amzn_sfp_rw P (rq_tun r) bus (rq_data r) (rq_ofs r) (rq_len r)
          (rq_flags r) (idle (rq_idle r) m) in
      serve P bus rest m1
  end.

(** ** Proof tools *)

(** Symbolic execution: unfold the driver and the monad, leaving the
    arithmetic alone. *)
Ltac drv_unfold :=
  cbv beta iota zeta delta
    [amzn_sfp_read amzn_sfp_write amzn_sfp_rw request_check
     amzn_sfp_translate amzn_sfp_execute ensure_page verify_page select_page
     settle_sleep i2c_transfer usleep_range blocked rt_mutex_lock rt_mutex_unlock
     dev_notice emit get_sc read_jiffies update_sc bind ret
     set_page set_page_ts sc jiffies ncall
     attr_size client_addr sfp_type cur_page cur_page_ts app].

(** Turn the boolean tests met along a path into propositions. *)
Ltac bool_hyps :=
  repeat match goal with
  | H : (_ || _) = true |- _ => apply orb_true_iff in H; destruct H as [H | H]
  | H : (_ || _) = false |- _ =>
      apply orb_false_iff in H; let H' := fresh H in destruct H as [H H']
  | H : (_ && _) = true |- _ =>
      apply andb_true_iff in H; let H' := fresh H in destruct H as [H H']
  | H : (_ && _) = false |- _ => apply andb_false_iff in H; destruct H as [H | H]
  | H : negb _ = true |- _ => apply negb_true_iff in H
  | H : negb _ = false |- _ => apply negb_false_iff in H
  | H : (_ <? _) = true |- _ => apply Z.ltb_lt in H
  | H : (_ <? _) = false |- _ => apply Z.ltb_ge in H
  | H : (_ =? _) = true |- _ => apply Z.eqb_eq in H
  | H : (_ =? _) = false |- _ => apply Z.eqb_neq in H
  | H : (_ >? _) = true |- _ => rewrite Z.gtb_ltb in H; apply Z.ltb_lt in H
  | H : (_ >? _) = false |- _ => rewrite Z.gtb_ltb in H; apply Z.ltb_ge in H
  | H : (_ >=? _) = true |- _ => rewrite Z.geb_leb in H; apply Z.leb_le in H
  | H : (_ >=? _) = false |- _ => rewrite Z.geb_leb in H; apply Z.leb_gt in H
  end.

Ltac int_unfold :=
  unfold to_u8, to_u16, to_ulong, to_schar, to_int, to_long,
    AMZN_SFP_TYPE_SFP_PLUS, AMZN_SFP_TYPE_QSFP_PLUS, AMZN_SFP_TYPE_QSFP28,
    AMZN_SFP_TYPE_QSFP_DD, AMZN_SFP_FULL_SIZE, AMZN_QSFP_PAGE_SELECT,
    I2C_M_RD, EINVAL, ENOSPC, ESPIPE, EPIPE in *;
  change AMZN_SFP_HALF_SIZE with 128 in *.

(** Linear arithmetic with [/] and [mod] by constants. *)
Ltac dlia := Z.div_mod_to_equations; lia.

Ltac arith := int_unfold; bool_hyps; dlia.

Ltac drv_case :=
  match goal with
  | |- context [if ?c then _ else _] =>
      let E := fresh "E" in destruct c eqn:E; drv_unfold
  end.

Ltac drv_run := drv_unfold; repeat drv_case.
(** * Facts about the parts *)

(** ** Conversions, clamps and windows *)

Lemma clamp_to_spec (limit len reg : Z) :
  0 < len -> 0 <= reg < limit -> limit <= 256 ->
  len < 18446744073709551616 - 256 ->
  clamp_to limit len reg = Z.min len (limit - reg).
Proof.
  intros. unfold clamp_to, to_ulong.
  rewrite (Z.mod_small (len + reg)) by lia.
  destruct (len + reg >? limit) eqn:E; bool_hyps.
  - rewrite Z.mod_small by lia. lia.
  - lia.
Qed.

Lemma chunk_spec (len : Z) : chunk len = Z.min len 64.
Proof. unfold chunk. destruct (len >? 64) eqn:E; bool_hyps; lia. Qed.

Lemma page_byte (P : platform) (pg : Z) :
  0 <= pg < 256 -> to_u8 (to_char P pg) = pg.
Proof.
  intros H. unfold to_char, to_schar, to_u8.
  destruct (char_is_signed P); dlia.
Qed.

Lemma time_in_range_plain (a b w : Z) :
  0 <= a - b < 9223372036854775808 -> 0 <= w < 9223372036854775808 ->
  time_in_range a b (to_ulong (b + w)) = (a - b <=? w).
Proof.
  intros Ha Hw. unfold time_in_range, time_before_eq, time_after_eq.
  replace (to_long (a - b)) with (a - b)
    by (unfold to_long; dlia).
  replace (to_long (to_ulong (b + w) - a)) with (w - (a - b))
    by (unfold to_long, to_ulong; dlia).
  destruct (Z.leb_spec (a - b) w).
  - apply andb_true_iff. rewrite !Z.geb_leb. split; apply Z.leb_le; lia.
  - apply andb_false_iff. right. rewrite Z.geb_leb. apply Z.leb_gt. lia.
Qed.

Lemma probe_size_bound (t : Z) : 256 <= probe_size t <= 32896.
Proof.
  unfold probe_size. destruct (t =? _); [|destruct (is_qsfp t)];
    int_unfold; lia.
Qed.

Lemma session_size_bound (s : amzn_sfp_softc) :
  session_ok s -> attr_size s < 18446744073709551616.
Proof. intros [E _]. rewrite E. pose proof (probe_size_bound (sfp_type s)). lia. Qed.

Lemma qsfp_not_sfp_plus (t : Z) :
  is_qsfp t = true -> (t =? AMZN_SFP_TYPE_SFP_PLUS) = false.
Proof.
  unfold is_qsfp. intros H. apply Z.eqb_neq. arith.
Qed.

Lemma qsfp_session_size (s : amzn_sfp_softc) :
  session_ok s -> is_qsfp (sfp_type s) = true -> attr_size s = 32896.
Proof.
  intros [E _] Hq. rewrite E. unfold probe_size.
  now rewrite (qsfp_not_sfp_plus _ Hq), Hq.
Qed.

Lemma request_check_valid (s : amzn_sfp_softc) (ofs len : Z) :
  valid_request s ofs len -> attr_size s < 18446744073709551616 ->
  request_check s ofs len = None.
Proof.
  intros (Ho & Hl & Hs) Hsz. unfold request_check.
  replace (ofs <? 0) with false by (symmetry; apply Z.ltb_ge; lia).
  replace (to_ulong ofs >=? attr_size s) with false
    by (symmetry; rewrite Z.geb_leb; apply Z.leb_gt;
        unfold to_ulong; rewrite Z.mod_small; lia).
  replace (len =? 0) with false by (symmetry; apply Z.eqb_neq; lia).
  replace (to_ulong (ofs + len) >? attr_size s) with false
    by (symmetry; rewrite Z.gtb_ltb; apply Z.ltb_ge;
        unfold to_ulong; rewrite Z.mod_small; lia).
  reflexivity.
Qed.

Lemma data_msgs_obs (a fl r n : Z) (data : list Z) :
  0 <= n <= 64 ->
  let msgs := data_msgs a fl r n data in
  msgs_reg msgs = Some r /\ msgs_count msgs = n /\
  Forall (fun x => addr x = a) msgs /\
  Z.of_nat (length msgs) = (if fl =? I2C_M_RD then 2 else 1).
Proof.
  intros Hn. unfold data_msgs, to_u16.
  destruct (fl =? I2C_M_RD); cbn [msgs_reg msgs_count buf len hd_error length];
    rewrite Z.mod_small by lia; repeat split; try lia;
    repeat constructor.
Qed.

(** ** Traces *)

Lemma bus_events_app (t1 t2 : list event) :
  bus_events (t1 ++ t2) = bus_events t1 ++ bus_events t2.
Proof. apply filter_app. Qed.

Lemma transfers_app (ph : phase) (t1 t2 : list event) :
  transfers ph (t1 ++ t2) = transfers ph t1 ++ transfers ph t2.
Proof. apply filter_app. Qed.

Lemma in_transfers (ph : phase) (msgs : list i2c_msg) (rc0 : Z) (tr : list event) :
  In (EvTransfer ph msgs rc0) tr -> In (EvTransfer ph msgs rc0) (transfers ph tr).
Proof. intros H. apply filter_In. split; [assumption | now destruct ph]. Qed.

Lemma not_in_empty_transfers (ph : phase) (msgs : list i2c_msg) (rc0 : Z)
    (tr : list event) :
  transfers ph tr = [] -> ~ In (EvTransfer ph msgs rc0) tr.
Proof. intros E H. apply in_transfers in H. rewrite E in H. destruct H. Qed.

Lemma bus_events_settle P T s now : bus_events (settle_events P T s now) = [].
Proof. unfold settle_events. now destruct (settle_due P T s now). Qed.

Lemma transfers_settle P T ph s now : transfers ph (settle_events P T s now) = [].
Proof. unfold settle_events. destruct (settle_due P T s now); now destruct ph. Qed.

(** ** The joints of an access *)

Section Joints.

Variable P : platform.
Variable T : tunables.
Variable bus : nat -> reply.

Lemma execute_spec (a r l fl : Z) (data : list Z) (m m' : machine)
    (v : Z) (tr : list event) :
  amzn_sfp_execute P T bus a r l fl data m = (v, m', tr) ->
  sc m' = sc m /\
  exists rp : reply,
    let msgs := data_msgs a fl r (chunk l) data in
    tr = settle_events P T (sc m) (jiffies m)
         ++ [EvTransfer DataPhase msgs (rc rp); EvUnlock] /\
    v = data_result (rc rp) (Z.of_nat (length msgs)) (chunk l).
Proof.
  destruct m as [s j n]. unfold settle_events. drv_unfold.
  destruct (settle_due P T s j); drv_unfold; intros E;
    injection E as <- <- <-; (split; [reflexivity|]);
    eexists; split; reflexivity.
Qed.

(** The access, cut at its two joints: the checks, then the switch, then
    the data phase. *)
Lemma rw_unfold (data : list Z) (ofs len flags : Z) (m : machine) :
  amzn_sfp_rw P T bus data ofs len flags m =
  match request_check (sc m) ofs len with
  | Some e => (e, m, [])
  | None =>
      let '(x, m1, t1) :=
        amzn_sfp_translate P T bus (client_addr (sc m)) ofs len m in
      match x with
      | Abort e => (e, m1, EvLock :: t1)
      | Go a r l =>
          let '(v, m2, t2) := amzn_sfp_execute P T bus a r l flags data m1 in
          (v, m2, EvLock :: t1 ++ t2)
      end
  end.
Proof.
  unfold amzn_sfp_rw. unfold bind at 1. unfold get_sc.
  destruct (request_check (sc m) ofs len) as [e|]; [reflexivity|].
  unfold bind, rt_mutex_lock, emit.
  destruct (amzn_sfp_translate _ _ _ _ _ _ m) as [[x m1] t1].
  destruct x as [e | a r l].
  - unfold ret. cbn [app]. now rewrite app_nil_r.
  - destruct (amzn_sfp_execute _ _ _ _ _ _ _ _ m1) as [[v m2] t2]. reflexivity.
Qed.

Lemma translate_unfold (a ofs len : Z) (m : machine) :
  amzn_sfp_translate P T bus a ofs len m =
  if sfp_type (sc m) =? AMZN_SFP_TYPE_SFP_PLUS then
    (Go (to_u16 (a + ofs / 256)) (to_u8 (ofs mod 256))
        (clamp_to 256 len (to_u8 (ofs mod 256))), m, [])
  else if is_qsfp (sfp_type (sc m)) then
    if ofs <? 128 then (Go a (to_u8 ofs) (clamp_to 128 len (to_u8 ofs)), m, [])
    else
      let '(r, m1, t1) := ensure_page P T bus a (ofs / 128 - 1) m in
      (match r with
       | Some e => Abort e
       | None => Go a (to_u8 (ofs mod 128 + 128))
                   (clamp_to 256 len (to_u8 (ofs mod 128 + 128)))
       end, m1, t1)
  else (Go a (to_u8 ofs) len, m, []).
Proof.
  unfold amzn_sfp_translate. unfold bind at 1. unfold get_sc.
  change AMZN_SFP_HALF_SIZE with 128. change AMZN_SFP_FULL_SIZE with 256.
  destruct (sfp_type (sc m) =? AMZN_SFP_TYPE_SFP_PLUS); [reflexivity|].
  destruct (is_qsfp (sfp_type (sc m))); [|reflexivity].
  destruct (ofs <? 128); [reflexivity|].
  unfold bind. destruct (ensure_page _ _ _ _ _ m) as [[r m1] t1].
  destruct r; unfold ret; cbn [app]; now rewrite app_nil_r.
Qed.

End Joints.

Lemma execute_data (P : platform) (T : tunables) (bus : nat -> reply)
    (a r l fl : Z) (data : list Z) (m m' : machine) (v : Z) (t2 : list event) :
  amzn_sfp_execute P T bus a r l fl data m = (v, m', t2) ->
  sc m' = sc m /\
  exists rc0,
    transfers DataPhase t2
    = [EvTransfer DataPhase (data_msgs a fl r (chunk l) data) rc0] /\
    bus_events t2 = transfers DataPhase t2 /\
    transfers PageVerify t2 = [] /\ transfers PageSelect t2 = [] /\
    (0 <= v -> v = chunk l /\ 0 <= rc0).
Proof.
  intros X. apply execute_spec in X. destruct X as (Hsc & rp & Htr & Hv).
  cbv zeta in *. split; [assumption|]. exists (rc rp). rewrite Htr.
  rewrite !transfers_app, bus_events_app, !transfers_settle, bus_events_settle.
  do 4 (split; [reflexivity|]). intros Hpos. subst v. unfold data_result in *.
  destruct (rc rp <? 0) eqn:E1; [exfalso; arith|].
  destruct (negb _) eqn:E2; [exfalso; arith|]. split; [reflexivity | arith].
Qed.

(** ** The page cache, lines 176-245 *)

Section PageCache.

Variable P : platform.
Variable T : tunables.
Variable bus : nat -> reply.

Ltac page_run m :=
  destruct m as [[sz a0 t p ts] j n]; drv_run;
  intros X; inversion X; subst; clear X.

Ltac in_cases :=
  repeat match goal with
  | H : In _ _ |- _ => cbn [In] in H
  | H : _ \/ _ |- _ => destruct H
  | H : False |- _ => destruct H
  | H : EvTransfer _ _ _ = EvTransfer _ _ _ |- _ => inversion H; subst; clear H
  | H : _ = EvTransfer _ _ _ |- _ => discriminate H
  end.

Lemma ensure_page_frame (a pg : Z) (m m' : machine) r tr :
  ensure_page P T bus a pg m = (r, m', tr) ->
  attr_size (sc m') = attr_size (sc m) /\
  client_addr (sc m') = client_addr (sc m) /\
  sfp_type (sc m') = sfp_type (sc m) /\
  transfers DataPhase tr = [] /\ sleeps tr = [].
Proof. page_run m; repeat split. Qed.

Lemma ensure_page_failure (a pg : Z) (m m' : machine) r tr :
  ensure_page P T bus a pg m = (r, m', tr) ->
  forall ph msgs rc0,
    In (EvTransfer ph msgs rc0) tr -> rc0 < 0 ->
    r = Some rc0 /\ cur_page (sc m') = -1.
Proof.
  page_run m; intros ph msgs rc0 HIn Hrc; in_cases;
    (split; reflexivity) || (exfalso; bool_hyps; lia).
Qed.

Lemma ensure_page_abort (a pg : Z) (m m' : machine) e tr :
  ensure_page P T bus a pg m = (Some e, m', tr) ->
  e < 0 /\ cur_page (sc m') = -1 /\ bus_events tr <> [] /\
  exists ph msgs, In (EvTransfer ph msgs e) tr.
Proof.
  page_run m; bool_hyps; (split; [assumption|]); (split; [reflexivity|]);
    (split; [discriminate|]); do 2 eexists; cbn [In]; eauto 6.
Qed.

Lemma ensure_page_done (a pg : Z) (m m' : machine) tr :
  ensure_page P T bus a pg m = (None, m', tr) ->
  cur_page (sc m') = to_char P pg /\
  forall ph msgs rc0, In (EvTransfer ph msgs rc0) tr -> 0 <= rc0.
Proof.
  page_run m; bool_hyps; (split; [congruence|]);
    intros ph msgs rc0 HIn; in_cases; assumption.
Qed.

Lemma ensure_page_verify (a pg : Z) (m m' : machine) r tr :
  ensure_page P T bus a pg m = (r, m', tr) ->
  if page_is_stale P T (sc m) (jiffies m) then
    exists rest,
      tr = EvTransfer PageVerify (verify_msgs a) (rc (bus (ncall m))) :: rest /\
      transfers PageVerify rest = []
  else transfers PageVerify tr = [].
Proof.
  destruct m as [[sz a0 t p ts] j n]; drv_run;
    intros X; inversion X; subst; clear X;
    try reflexivity; eexists; split; reflexivity.
Qed.

Lemma ensure_page_select (a pg : Z) (m m' : machine) r tr :
  ensure_page P T bus a pg m = (r, m', tr) ->
  forall msgs rc0,
    In (EvTransfer PageSelect msgs rc0) tr ->
    msgs = select_msgs a (to_u8 (to_char P pg)) /\
    (0 <= rc0 ->
     r = None /\ cur_page (sc m') = to_char P pg /\
     cur_page_ts (sc m') = jiffies m').
Proof.
  page_run m; intros msgs rc0 HIn; in_cases; (split; [reflexivity|]);
    intros Hrc; (repeat split; reflexivity) || (exfalso; bool_hyps; lia).
Qed.

Lemma ensure_page_writes_once (a pg : Z) (m m' : machine) r tr :
  ensure_page P T bus a pg m = (r, m', tr) ->
  (length (transfers PageSelect tr) <= 1)%nat.
Proof. page_run m; cbn; lia. Qed.

Lemma ensure_page_skip (a pg : Z) (m m' : machine) r tr :
  ensure_page P T bus a pg m = (r, m', tr) ->
  cur_page (sc m) = to_char P pg ->
  (page_is_stale P T (sc m) (jiffies m) = true ->
   0 <= rc (bus (ncall m)) ->
   to_char P (rx (bus (ncall m))) = to_char P pg) ->
  transfers PageSelect tr = [].
Proof.
  destruct m as [[sz a0 t p ts] j n]; cbn [sc jiffies ncall cur_page]; drv_run;
    intros X; inversion X; subst; clear X; intros Hc Hv;
    try reflexivity; exfalso; bool_hyps;
    try (specialize (Hv eq_refl ltac:(lia))); congruence.
Qed.

Lemma ensure_page_stamp (a pg : Z) (m m' : machine) tr :
  ensure_page P T bus a pg m = (None, m', tr) ->
  (bus_events tr = [] /\ tr = [] /\ m' = m) \/
  (bus_events tr <> [] /\ cur_page_ts (sc m') = jiffies m').
Proof.
  page_run m; (left; repeat split; reflexivity)
              || (right; split; [discriminate | reflexivity]).
Qed.

End PageCache.

Lemma ensure_page_clock (P : platform) (T : tunables) (bus : nat -> reply)
    (a pg : Z) (m m' : machine) r tr :
  ensure_page P T bus a pg m = (r, m', tr) ->
  bus_events tr <> [] -> 0 <= jiffies m' < 18446744073709551616.
Proof.
  destruct m as [[sz a0 t p ts] j n]; drv_run;
    intros X; injection X as <- <- <-; intros H;
    try (exfalso; apply H; reflexivity);
    cbn [jiffies]; unfold to_ulong; dlia.
Qed.

Lemma ensure_page_noop (P : platform) (T : tunables) (bus : nat -> reply)
    (a pg : Z) (m : machine) :
  cur_page (sc m) = to_char P pg ->
  page_is_stale P T (sc m) (jiffies m) = false ->
  ensure_page P T bus a pg m = (None, m, []).
Proof.
  destruct m as [[sz a0 t p ts] j n]. cbn [sc jiffies cur_page].
  intros -> Hst. drv_unfold. rewrite Hst. drv_unfold.
  now rewrite Z.eqb_refl.
Qed.

(** Away from wrap-around, the settle window is: at most
    [msecs_to_jiffies(page_load_wait_ms)] jiffies since the stamp. *)
Lemma settle_due_plain (P : platform) (T : tunables) (s : amzn_sfp_softc)
    (now : Z) :
  0 <= now - cur_page_ts s < 9223372036854775808 ->
  0 <= msecs_to_jiffies P (amzn_sfp_page_load_wait_ms T) < 9223372036854775808 ->
  settle_due P T s now
  = (now - cur_page_ts s <=? msecs_to_jiffies P (amzn_sfp_page_load_wait_ms T)).
Proof. intros Ha Hw. unfold settle_due. now apply time_in_range_plain. Qed.

Lemma settle_due_at_stamp (P : platform) (T : tunables) (s : amzn_sfp_softc) :
  0 <= cur_page_ts s < 18446744073709551616 ->
  0 <= msecs_to_jiffies P (amzn_sfp_page_load_wait_ms T) < 9223372036854775808 ->
  settle_due P T s (cur_page_ts s) = true.
Proof.
  intros Hts Hw. unfold settle_due.
  rewrite time_in_range_plain by lia. apply Z.leb_le. lia.
Qed.

(** * The request checks and the address translation *)

(** C7, as the driver has it.  The three checks are made in this order and
    the first that fails decides: an offset below zero or not below the size
    gives [-ESPIPE]; otherwise a zero length gives [-EINVAL]; otherwise an
    end past the size gives [-ENOSPC], the end being taken in 64 bits.  A
    refused request leaves the session and the clock as they were, takes no
    lock and makes no transfer. *)
Theorem request_checks_in_order
    (P : platform) (T : tunables) (bus : nat -> reply) (data : list Z)
    (ofs len flags : Z) (m : machine) :
  - 9223372036854775808 <= ofs < 9223372036854775808 ->
  0 <= len < 18446744073709551616 ->
  (ofs < 0 \/ attr_size (sc m) <= ofs ->
   amzn_sfp_rw P T bus data ofs len flags m = (- ESPIPE, m, [])) /\
  (0 <= ofs < attr_size (sc m) -> len = 0 ->
   amzn_sfp_rw P T bus data ofs len flags m = (- EINVAL, m, [])) /\
  (0 <= ofs < attr_size (sc m) -> len <> 0 ->
   attr_size (sc m) < ofs + len < 18446744073709551616 ->
   amzn_sfp_rw P T bus data ofs len flags m = (- ENOSPC, m, [])).
Proof.
  intros Hofs Hlen. rewrite rw_unfold. unfold request_check.
  repeat split.
  - intros H.
    replace ((ofs <? 0) || (to_ulong ofs >=? attr_size (sc m))) with true;
      [reflexivity|].
    symmetry. apply orb_true_iff.
    destruct (Z.ltb_spec ofs 0); [now left | right].
    rewrite Z.geb_leb. apply Z.leb_le. unfold to_ulong.
    rewrite Z.mod_small; lia.
  - intros H H0.
    replace (ofs <? 0) with false by (symmetry; apply Z.ltb_ge; lia).
    replace (to_ulong ofs >=? attr_size (sc m)) with false
      by (symmetry; rewrite Z.geb_leb; apply Z.leb_gt;
          unfold to_ulong; rewrite Z.mod_small; lia).
    subst len. reflexivity.
  - intros H H0 H1.
    replace (ofs <? 0) with false by (symmetry; apply Z.ltb_ge; lia).
    replace (to_ulong ofs >=? attr_size (sc m)) with false
      by (symmetry; rewrite Z.geb_leb; apply Z.leb_gt;
          unfold to_ulong; rewrite Z.mod_small; lia).
    replace (len =? 0) with false by (symmetry; apply Z.eqb_neq; lia).
    replace (to_ulong (ofs + len) >? attr_size (sc m)) with true
      by (symmetry; rewrite Z.gtb_ltb; apply Z.ltb_lt;
          unfold to_ulong; rewrite Z.mod_small; lia).
    reflexivity.
Qed.

(** C8.  On an SFP_PLUS session, a valid request is served by one data
    transfer, addressed to [base + offset / 256], starting at register
    [offset % 256], whose length is at most [256 - offset % 256]: it stays
    inside the 256 bytes of one bus address. *)
Theorem sfp_plus_transfer_stays_in_device
    (P : platform) (T : tunables) (bus : nat -> reply) (data : list Z)
    (ofs len flags : Z) (m m' : machine) (v : Z) (tr : list event) :
  sfp_type (sc m) = AMZN_SFP_TYPE_SFP_PLUS ->
  session_ok (sc m) ->
  valid_request (sc m) ofs len ->
  amzn_sfp_rw P T bus data ofs len flags m = (v, m', tr) ->
  exists msgs rc0,
    bus_events tr = [EvTransfer DataPhase msgs rc0] /\
    Forall (fun x => addr x = client_addr (sc m) + ofs / 256) msgs /\
    msgs_reg msgs = Some (ofs mod 256) /\
    msgs_count msgs = Z.min (Z.min len (256 - ofs mod 256)) 64 /\
    0 < msgs_count msgs <= 256 - ofs mod 256 /\
    ofs mod 256 + msgs_count msgs <= 256.
Proof.
  intros Ht Hok Hv E.
  pose proof (session_size_bound _ Hok) as Hsz.
  destruct Hok as [Hsize Haddr]. rewrite Ht in Hsize.
  change (probe_size AMZN_SFP_TYPE_SFP_PLUS) with 512 in Hsize.
  rewrite rw_unfold, (request_check_valid _ _ _ Hv Hsz), translate_unfold in E.
  rewrite Ht in E. change (AMZN_SFP_TYPE_SFP_PLUS =? AMZN_SFP_TYPE_SFP_PLUS)
    with true in E. cbv iota in E.
  destruct (amzn_sfp_execute _ _ _ _ _ _ _ _ m) as [[v2 m2] t2] eqn:X.
  inversion E; subst; clear E.
  apply execute_spec in X. destruct X as (_ & rp & Htr & _).
  destruct Hv as (Ho & Hl & Hs). rewrite Hsize in *.
  assert (Hreg : to_u8 (ofs mod 256) = ofs mod 256)
    by (unfold to_u8; rewrite Z.mod_mod; lia).
  assert (Hadr : to_u16 (client_addr (sc m) + ofs / 256)
                 = client_addr (sc m) + ofs / 256)
    by (unfold to_u16; apply Z.mod_small; dlia).
  rewrite Hreg, Hadr in Htr.
  rewrite clamp_to_spec, chunk_spec in Htr by dlia.
  set (n := Z.min (Z.min len (256 - ofs mod 256)) 64) in *.
  assert (Hn : 0 < n <= 64) by (subst n; dlia).
  destruct (data_msgs_obs (client_addr (sc m) + ofs / 256) flags (ofs mod 256)
              n data) as (Hr & Hc & Ha & _); [lia|].
  eexists _, (rc rp). rewrite Htr.
  cbn [app]. change (EvLock :: ?x ++ ?y) with ([EvLock] ++ x ++ y).
  rewrite !bus_events_app, bus_events_settle.
  cbn [app bus_events filter is_bus].
  repeat split; try eassumption; rewrite ?Hc; subst n; dlia.
Qed.

(** C2.  On a QSFP-family session, a valid request below offset 128 is
    served from register [offset] with at most [128 - offset] bytes and
    without touching the page select register; a valid request at offset
    128 or above wants page [offset / 128 - 1], the only page a page select
    write of the access carries, and its data transfer starts at register
    [offset % 128 + 128], in [128, 256), with at most [256 - register]
    bytes.  The data transfer takes place unless the page phase failed. *)
Theorem qsfp_translation
    (P : platform) (T : tunables) (bus : nat -> reply) (data : list Z)
    (ofs len flags : Z) (m m' : machine) (v : Z) (tr : list event) :
  is_qsfp (sfp_type (sc m)) = true ->
  session_ok (sc m) ->
  valid_request (sc m) ofs len ->
  amzn_sfp_rw P T bus data ofs len flags m = (v, m', tr) ->
  0 <= ofs < 257 * 128 /\
  (ofs < 128 ->
   transfers PageVerify tr = [] /\ transfers PageSelect tr = [] /\
   exists msgs rc0,
     bus_events tr = [EvTransfer DataPhase msgs rc0] /\
     msgs_reg msgs = Some ofs /\
     0 < msgs_count msgs <= 128 - ofs /\ msgs_count msgs <= len) /\
  (128 <= ofs ->
   let page := ofs / 128 - 1 in
   let reg := ofs mod 128 + 128 in
   0 <= page < 256 /\ 128 <= reg < 256 /\
   (forall msgs rc0,
      In (EvTransfer PageSelect msgs rc0) tr ->
      msgs = select_msgs (client_addr (sc m)) page) /\
   (forall msgs rc0,
      In (EvTransfer DataPhase msgs rc0) tr ->
      msgs_reg msgs = Some reg /\
      0 < msgs_count msgs <= 256 - reg /\ msgs_count msgs <= len /\
      reg + msgs_count msgs <= 256) /\
   ((exists msgs rc0, transfers DataPhase tr = [EvTransfer DataPhase msgs rc0])
    \/ (v < 0 /\ transfers DataPhase tr = [] /\
        exists ph msgs, ph <> DataPhase /\ In (EvTransfer ph msgs v) tr))).
Proof.
  intros Hq Hok Hv E.
  pose proof (session_size_bound _ Hok) as Hsz.
  pose proof (qsfp_session_size _ Hok Hq) as Hsize.
  rewrite rw_unfold, (request_check_valid _ _ _ Hv Hsz), translate_unfold,
    (qsfp_not_sfp_plus _ Hq), Hq in E.
  destruct Hv as (Ho & Hl & Hs). rewrite Hsize in *.
  split; [lia|]. split.
  - intros Hlow.
    replace (ofs <? 128) with true in E by (symmetry; apply Z.ltb_lt; lia).
    destruct (amzn_sfp_execute _ _ _ _ _ _ _ _ m) as [[v2 m2] t2] eqn:Y.
    injection E as <- <- <-.
    apply execute_data in Y.
    destruct Y as (_ & rc0 & Hd & Hb & Hpv & Hps & _).
    change (EvLock :: ?x) with ([EvLock] ++ x).
    rewrite !transfers_app, !bus_events_app, Hpv, Hps, Hb, Hd.
    do 2 (split; [reflexivity|]). eexists _, _. split; [reflexivity|].
    unfold to_u8. rewrite (Z.mod_small ofs) by lia.
    rewrite clamp_to_spec, chunk_spec by lia.
    destruct (data_msgs_obs (client_addr (sc m)) flags ofs
                (Z.min (Z.min len (128 - ofs)) 64) data) as (Hr & Hc & _);
      [lia|]. rewrite Hr, Hc. repeat split; lia.
  - intros Hup. cbv zeta.
    replace (ofs <? 128) with false in E by (symmetry; apply Z.ltb_ge; lia).
    assert (Hpg : 0 <= ofs / 128 - 1 < 256) by dlia.
    assert (Hrg : 128 <= ofs mod 128 + 128 < 256) by dlia.
    do 2 (split; [assumption|]).
    assert (Hreg : to_u8 (ofs mod 128 + 128) = ofs mod 128 + 128)
      by (unfold to_u8; apply Z.mod_small; lia).
    rewrite Hreg, clamp_to_spec in E by lia.
    destruct (ensure_page _ _ _ _ _ m) as [[r m1] t1] eqn:Ep.
    pose proof (ensure_page_frame _ _ _ _ _ _ _ _ _ Ep) as (_ & _ & _ & Hd1 & _).
    pose proof (ensure_page_select _ _ _ _ _ _ _ _ _ Ep) as Hsel.
    rewrite page_byte in Hsel by assumption.
    destruct r as [e|].
    + injection E as <- <- <-.
      apply ensure_page_abort in Ep. destruct Ep as (He & _ & _ & ph & msgs & Hin).
      split; [|split].
      * intros msgs0 rc0 [X|X]; [discriminate|]. eapply Hsel; eassumption.
      * intros msgs0 rc0 [X|X]; [discriminate|]. exfalso.
        assert (Hf : In (EvTransfer DataPhase msgs0 rc0) (transfers DataPhase t1))
          by (apply filter_In; split; [assumption | reflexivity]).
        rewrite Hd1 in Hf. destruct Hf.
      * right. split; [assumption|]. split.
        -- change (EvLock :: t1) with ([EvLock] ++ t1).
           now rewrite transfers_app, Hd1.
        -- exists ph, msgs. split; [|now right].
           intros ->.
           assert (Hf : In (EvTransfer DataPhase msgs e) (transfers DataPhase t1))
             by (apply filter_In; split; [assumption | reflexivity]).
           rewrite Hd1 in Hf. destruct Hf.
    + destruct (amzn_sfp_execute _ _ _ _ _ _ _ _ m1) as [[v2 m2] t2] eqn:Y.
      injection E as <- <- <-.
      apply execute_data in Y.
      destruct Y as (_ & rc0 & Hd & Hb & Hpv & Hps & _).
      rewrite chunk_spec in Hd.
      destruct (data_msgs_obs (client_addr (sc m)) flags (ofs mod 128 + 128)
                  (Z.min (Z.min len (256 - (ofs mod 128 + 128))) 64) data)
        as (Hr & Hc & _); [lia|].
      split; [|split].
      * intros msgs0 rc1 [X|X]; [discriminate|].
        apply in_app_or in X. destruct X as [X|X].
        -- eapply Hsel; eassumption.
        -- exfalso.
           assert (Hf : In (EvTransfer PageSelect msgs0 rc1)
                          (transfers PageSelect t2))
             by (apply filter_In; split; [assumption | reflexivity]).
           rewrite Hps in Hf. destruct Hf.
      * intros msgs0 rc1 [X|X]; [discriminate|].
        apply in_app_or in X. destruct X as [X|X].
        -- exfalso.
           assert (Hf : In (EvTransfer DataPhase msgs0 rc1)
                          (transfers DataPhase t1))
             by (apply filter_In; split; [assumption | reflexivity]).
           rewrite Hd1 in Hf. destruct Hf.
        -- assert (Hf : In (EvTransfer DataPhase msgs0 rc1)
                          (transfers DataPhase t2))
             by (apply filter_In; split; [assumption | reflexivity]).
           rewrite Hd in Hf. destruct Hf as [Hf|[]].
           apply (f_equal (fun e => match e with EvTransfer _ ms _ => ms | _ => [] end))
             in Hf.
           cbv beta iota in Hf. rewrite <- Hf, Hr, Hc. repeat split; lia.
      * left. change (EvLock :: ?x) with ([EvLock] ++ x).
        rewrite !transfers_app, Hd1, Hd. eexists _, _. reflexivity.
Qed.

(** C9.  A valid request that succeeds returns the length of its data
    transfer: the requested length, cut to the room left before the
    boundary of its class and to 64 bytes. *)
Theorem successful_access_returns_clamped_length
    (P : platform) (T : tunables) (bus : nat -> reply) (data : list Z)
    (ofs len flags : Z) (m m' : machine) (v : Z) (tr : list event) :
  session_ok (sc m) ->
  valid_request (sc m) ofs len ->
  amzn_sfp_rw P T bus data ofs len flags m = (v, m', tr) ->
  0 <= v ->
  (exists msgs rc0,
     transfers DataPhase tr = [EvTransfer DataPhase msgs rc0] /\
     msgs_count msgs = v) /\
  0 < v <= len /\ v <= 64 /\
  (sfp_type (sc m) = AMZN_SFP_TYPE_SFP_PLUS ->
   v = Z.min (Z.min len (256 - ofs mod 256)) 64) /\
  (is_qsfp (sfp_type (sc m)) = true -> ofs < 128 ->
   v = Z.min (Z.min len (128 - ofs)) 64) /\
  (is_qsfp (sfp_type (sc m)) = true -> 128 <= ofs ->
   v = Z.min (Z.min len (256 - (ofs mod 128 + 128))) 64) /\
  (sfp_type (sc m) <> AMZN_SFP_TYPE_SFP_PLUS ->
   is_qsfp (sfp_type (sc m)) = false ->
   v = Z.min len 64).
Proof.
  intros Hok Hv E Hpos.
  pose proof (session_size_bound _ Hok) as Hsz.
  pose proof (probe_size_bound (sfp_type (sc m))) as Hps.
  destruct Hok as [Hsize _]. rewrite <- Hsize in Hps.
  rewrite rw_unfold, (request_check_valid _ _ _ Hv Hsz), translate_unfold in E.
  destruct Hv as (Ho & Hl & Hs).
  assert (G : forall a r l t1 m1,
             (let '(v0, m2, t2) := amzn_sfp_execute P T bus a r l flags data m1 in
              (v0, m2, EvLock :: t1 ++ t2)) = (v, m', tr) ->
             transfers DataPhase t1 = [] ->
             0 < l <= len ->
             (exists msgs rc0,
                transfers DataPhase tr = [EvTransfer DataPhase msgs rc0] /\
                msgs_count msgs = v) /\ v = Z.min l 64).
  { intros a r l t1 m1 X Ht1 Hl1.
    destruct (amzn_sfp_execute _ _ _ _ _ _ _ _ m1) as [[v2 m2] t2] eqn:Y.
    inversion X; subst; clear X.
    apply execute_data in Y. destruct Y as (_ & rc0 & Hd & _ & _ & _ & Hr).
    destruct (Hr Hpos) as [Hc _]. rewrite chunk_spec in *.
    change (EvLock :: ?x ++ ?y) with ([EvLock] ++ x ++ y).
    rewrite !transfers_app, Ht1, Hd. cbn [transfers filter is_transfer app].
    split; [|assumption]. eexists _, _. split; [reflexivity|].
    rewrite Hc. apply data_msgs_obs. lia. }
  destruct (sfp_type (sc m) =? AMZN_SFP_TYPE_SFP_PLUS) eqn:Et.
  { apply G in E; [|reflexivity|].
    - destruct E as [E1 E2]. split; [assumption|].
      unfold to_u8 in E2. rewrite Z.mod_mod in E2 by lia.
      rewrite clamp_to_spec in E2 by dlia.
      assert (is_qsfp (sfp_type (sc m)) = false)
        by (apply Z.eqb_eq in Et; now rewrite Et).
      repeat split; try congruence; try dlia; intros; exfalso; arith.
    - unfold to_u8. rewrite Z.mod_mod by lia. rewrite clamp_to_spec by dlia.
      dlia. }
  destruct (is_qsfp (sfp_type (sc m))) eqn:Eq.
  - assert (Hsz2 : attr_size (sc m) = 32896).
    { rewrite Hsize. unfold probe_size. now rewrite Et, Eq. }
    destruct (ofs <? 128) eqn:Eo.
    + apply G in E; [|reflexivity|]; bool_hyps.
      * destruct E as [E1 E2]. split; [assumption|].
        unfold to_u8 in E2. rewrite Z.mod_small in E2 by lia.
        rewrite clamp_to_spec in E2 by dlia.
        repeat split; try congruence; try dlia; intros; exfalso; arith.
      * unfold to_u8. rewrite Z.mod_small by lia. rewrite clamp_to_spec by dlia.
        dlia.
    + destruct (ensure_page _ _ _ _ _ m) as [[r m1] t1] eqn:Ep.
      destruct r as [e|].
      * apply ensure_page_abort in Ep. inversion E; subst. lia.
      * apply ensure_page_frame in Ep. destruct Ep as (_ & _ & _ & Hd & _).
        bool_hyps.
        assert (Hreg : to_u8 (ofs mod 128 + 128) = ofs mod 128 + 128)
          by (unfold to_u8; apply Z.mod_small; dlia).
        rewrite Hreg in E.
        apply G in E; [|assumption|].
        -- destruct E as [E1 E2]. split; [assumption|].
           rewrite clamp_to_spec in E2 by dlia.
           repeat split; try congruence; try dlia; intros; exfalso; arith.
        -- rewrite clamp_to_spec by dlia. dlia.
  - apply G in E; [|reflexivity|lia].
    destruct E as [E1 E2]. split; [assumption|].
    repeat split; try congruence; try dlia; intros; exfalso; arith.
Qed.

(** C10.  On a session that is not of the QSFP family (SFP_PLUS, or a class
    the driver does not know) an access leaves the whole session state as it
    was, page belief and time stamp included, and issues no transfer on the
    page select register: a refused request touches nothing, an accepted one
    makes the one transfer of its data phase. *)
Theorem unpaged_access_leaves_page_cache
    (P : platform) (T : tunables) (bus : nat -> reply) (data : list Z)
    (ofs len flags : Z) (m m' : machine) (v : Z) (tr : list event) :
  is_qsfp (sfp_type (sc m)) = false ->
  amzn_sfp_rw P T bus data ofs len flags m = (v, m', tr) ->
  sc m' = sc m /\
  cur_page (sc m') = cur_page (sc m) /\
  cur_page_ts (sc m') = cur_page_ts (sc m) /\
  transfers PageVerify tr = [] /\
  transfers PageSelect tr = [] /\
  match request_check (sc m) ofs len with
  | Some e => v = e /\ tr = []
  | None => exists msgs rc0, bus_events tr = [EvTransfer DataPhase msgs rc0]
  end.
Proof.
  intros Hq E. rewrite rw_unfold, translate_unfold, Hq in E.
  assert (G : forall a r l,
             (let '(v0, m2, t2) := amzn_sfp_execute P T bus a r l flags data m in
              (v0, m2, EvLock :: [] ++ t2)) = (v, m', tr) ->
             sc m' = sc m /\ transfers PageVerify tr = [] /\
             transfers PageSelect tr = [] /\
             exists msgs rc0, bus_events tr = [EvTransfer DataPhase msgs rc0]).
  { intros a r l X.
    destruct (amzn_sfp_execute _ _ _ _ _ _ _ _ m) as [[v2 m2] t2] eqn:Y.
    inversion X; subst; clear X.
    apply execute_spec in Y. destruct Y as (Hsc & rp & Htr & _).
    rewrite Htr. cbn [app].
    change (EvLock :: ?x ++ ?y) with ([EvLock] ++ x ++ y).
    rewrite !transfers_app, !bus_events_app, !transfers_settle,
      bus_events_settle.
    repeat split; try assumption. eexists _, _. reflexivity. }
  destruct (request_check (sc m) ofs len) as [e|].
  - inversion E; subst. repeat split.
  - destruct (sfp_type (sc m) =? AMZN_SFP_TYPE_SFP_PLUS);
      apply G in E; destruct E as (Hsc & Hv & Hs & Hd); rewrite Hsc;
      repeat split; assumption.
Qed.

(** * The page cache *)

(** C6.  On a QSFP-family session, a valid request at offset 128 or above
    starts, once the lock is taken, with a read of the page select register
    when the believed page is -1 or the clock is outside the retention window
    of the time stamp, whatever page is believed and whatever page is wanted;
    otherwise the access makes no such read.  With no wrap-around in sight,
    the window is: at most [retention * HZ] jiffies since the stamp. *)
Theorem stale_belief_is_verified_first
    (P : platform) (T : tunables) (bus : nat -> reply) (data : list Z)
    (ofs len flags : Z) (m m' : machine) (v : Z) (tr : list event) :
  is_qsfp (sfp_type (sc m)) = true ->
  session_ok (sc m) ->
  valid_request (sc m) ofs len ->
  128 <= ofs ->
  amzn_sfp_rw P T bus data ofs len flags m = (v, m', tr) ->
  let s := sc m in
  let now := jiffies m in
  let window := to_int (amzn_sfp_page_retention T * HZ P) in
  let expiry := to_ulong (cur_page_ts s + window) in
  (cur_page s = -1 \/ time_in_range now (cur_page_ts s) expiry = false ->
   exists rc0 rest,
     tr = EvLock :: EvTransfer PageVerify (verify_msgs (client_addr s)) rc0 :: rest /\
     transfers PageVerify rest = []) /\
  (cur_page s <> -1 -> time_in_range now (cur_page_ts s) expiry = true ->
   transfers PageVerify tr = []) /\
  (0 <= now - cur_page_ts s < 9223372036854775808 -> 0 <= window ->
   time_in_range now (cur_page_ts s) expiry = (now - cur_page_ts s <=? window)).
Proof.
  intros Hq Hok Hv Hup E s now window expiry.
  pose proof (session_size_bound _ Hok) as Hsz.
  rewrite rw_unfold, (request_check_valid _ _ _ Hv Hsz), translate_unfold,
    (qsfp_not_sfp_plus _ Hq), Hq in E.
  replace (ofs <? 128) with false in E by (symmetry; apply Z.ltb_ge; lia).
  destruct (ensure_page _ _ _ _ _ m) as [[r m1] t1] eqn:Ep.
  pose proof (ensure_page_verify _ _ _ _ _ _ _ _ _ Ep) as Hver.
  unfold page_is_stale in Hver. fold s now window expiry in Hver.
  assert (Htail : exists t2, tr = EvLock :: t1 ++ t2 /\ transfers PageVerify t2 = []).
  { destruct r as [e|].
    - exists []. injection E as <- <- <-. now rewrite app_nil_r.
    - destruct (amzn_sfp_execute _ _ _ _ _ _ _ _ m1) as [[v2 m2] t2] eqn:Y.
      exists t2. injection E as <- <- <-. split; [reflexivity|].
      apply execute_data in Y. now destruct Y as (_ & rc0 & _ & _ & Hpv & _). }
  destruct Htail as (t2 & -> & Ht2).
  split; [|split].
  - intros Hst.
    replace ((cur_page s =? -1) || negb (time_in_range now (cur_page_ts s) expiry))
      with true in Hver.
    + destruct Hver as (rest & -> & Hrest).
      exists (rc (bus (ncall m))), (rest ++ t2). split; [reflexivity|].
      now rewrite transfers_app, Hrest, Ht2.
    + symmetry. apply orb_true_iff. destruct Hst as [Hst|Hst].
      * left. now apply Z.eqb_eq.
      * right. now rewrite Hst.
  - intros Hk Hin.
    replace ((cur_page s =? -1) || negb (time_in_range now (cur_page_ts s) expiry))
      with false in Hver.
    + change (EvLock :: ?x) with ([EvLock] ++ x).
      now rewrite !transfers_app, Hver, Ht2.
    + symmetry. apply orb_false_iff. split.
      * now apply Z.eqb_neq.
      * now rewrite Hin.
  - intros Hel Hw. apply time_in_range_plain; [assumption|].
    subst window. unfold to_int in *. dlia.
Qed.

(** C4, as the driver has it.  After a run of the page cache for page [pg]
    that did not fail, a second run for the same page, started from the
    session the first one left (at any later time, with any adapter), writes
    the page select register no more, provided that the register still holds
    [pg] if the second run reads it back; so the two runs make at most one
    such write.  The second run reads the register back when the belief is
    -1 or its retention window is over; when it does not, it does nothing
    at all. *)
Theorem second_ensure_page_skips_write
    (P : platform) (T1 T2 : tunables) (bus1 bus2 : nat -> reply) (a pg : Z)
    (m1 m1' m2 m2' : machine) (r2 : option Z) (tr1 tr2 : list event) :
  ensure_page P T1 bus1 a pg m1 = (None, m1', tr1) ->
  sc m2 = sc m1' ->
  ensure_page P T2 bus2 a pg m2 = (r2, m2', tr2) ->
  (page_is_stale P T2 (sc m2) (jiffies m2) = true ->
   0 <= rc (bus2 (ncall m2)) -> rx (bus2 (ncall m2)) = pg) ->
  transfers PageSelect tr2 = [] /\
  (length (transfers PageSelect (tr1 ++ tr2)) <= 1)%nat /\
  (page_is_stale P T2 (sc m2) (jiffies m2) = false ->
   r2 = None /\ m2' = m2 /\ tr2 = []).
Proof.
  intros E1 Hsc E2 Hhw.
  pose proof (ensure_page_done _ _ _ _ _ _ _ _ E1) as [Hbel _].
  rewrite <- Hsc in Hbel.
  assert (H2 : transfers PageSelect tr2 = []).
  { eapply ensure_page_skip; [eassumption | assumption |].
    intros Hst Hrc. now rewrite (Hhw Hst Hrc). }
  split; [assumption|]. split.
  - rewrite transfers_app, H2, app_nil_r.
    eapply ensure_page_writes_once; eassumption.
  - intros Hst. rewrite (ensure_page_noop _ _ _ _ _ _ Hbel Hst) in E2.
    injection E2 as <- <- <-. repeat split.
Qed.

(** C1, as the driver has it.  On a QSFP-family session, when the read that
    verifies the page select register or the write that selects the page
    fails, the access returns that error with the believed page at -1 and
    without a data phase.  The data phase itself never touches the belief:
    whatever it returns, the believed page is what the page phase left,
    unchanged below offset 128 and the wanted page from there on. *)
Theorem page_failure_invalidates_belief
    (P : platform) (T : tunables) (bus : nat -> reply) (data : list Z)
    (ofs len flags : Z) (m m' : machine) (v : Z) (tr : list event) :
  is_qsfp (sfp_type (sc m)) = true ->
  amzn_sfp_rw P T bus data ofs len flags m = (v, m', tr) ->
  (forall ph msgs rc0,
     In (EvTransfer ph msgs rc0) tr -> ph <> DataPhase -> rc0 < 0 ->
     cur_page (sc m') = -1 /\ v = rc0 /\ transfers DataPhase tr = []) /\
  (forall msgs rc0,
     In (EvTransfer DataPhase msgs rc0) tr ->
     cur_page (sc m') =
     if ofs <? 128 then cur_page (sc m) else to_char P (ofs / 128 - 1)).
Proof.
  intros Hq E.
  rewrite rw_unfold, translate_unfold, (qsfp_not_sfp_plus _ Hq), Hq in E.
  destruct (request_check (sc m) ofs len) as [e|].
  { injection E as <- <- <-.
    split; [intros ph msgs rc0 []|intros msgs rc0 []]. }
  destruct (ofs <? 128).
  - destruct (amzn_sfp_execute _ _ _ _ _ _ _ _ m) as [[v2 m2] t2] eqn:Y.
    injection E as <- <- <-. apply execute_data in Y.
    destruct Y as (Hsc & rc1 & _ & _ & Hpv & Hps & _).
    split.
    + intros ph msgs rc0 [X|X] Hph _; [discriminate|]. exfalso.
      destruct ph;
        [ exact (not_in_empty_transfers _ _ _ _ Hpv X)
        | exact (not_in_empty_transfers _ _ _ _ Hps X) | congruence ].
    + intros. now rewrite Hsc.
  - destruct (ensure_page _ _ _ _ _ m) as [[r m1] t1] eqn:Ep.
    pose proof (ensure_page_frame _ _ _ _ _ _ _ _ _ Ep) as (_ & _ & _ & Hd1 & _).
    pose proof (ensure_page_failure _ _ _ _ _ _ _ _ _ Ep) as Hfail.
    destruct r as [e|].
    + injection E as <- <- <-. split.
      * intros ph msgs rc0 [X|X] Hph Hrc; [discriminate|].
        destruct (Hfail _ _ _ X Hrc) as [He Hc].
        split; [assumption|]. split; [congruence|].
        change (EvLock :: t1) with ([EvLock] ++ t1).
        now rewrite transfers_app, Hd1.
      * intros msgs rc0 [X|X]; [discriminate|]. exfalso.
        exact (not_in_empty_transfers _ _ _ _ Hd1 X).
    + destruct (amzn_sfp_execute _ _ _ _ _ _ _ _ m1) as [[v2 m2] t2] eqn:Y.
      injection E as <- <- <-. apply execute_data in Y.
      destruct Y as (Hsc & rc1 & _ & _ & Hpv & Hps & _).
      split.
      * intros ph msgs rc0 [X|X] Hph Hrc; [discriminate|]. exfalso.
        apply in_app_or in X. destruct X as [X|X].
        -- destruct (Hfail _ _ _ X Hrc) as [He _]. discriminate.
        -- destruct ph;
             [ exact (not_in_empty_transfers _ _ _ _ Hpv X)
             | exact (not_in_empty_transfers _ _ _ _ Hps X) | congruence ].
      * intros. rewrite Hsc. now apply ensure_page_done in Ep.
Qed.

(** C5: a target where plain [char] is signed keeps page 255 as -1.  The
    session believes page 0, freshly stamped; a one-byte write at offset
    [256 * 128] wants page 255; the page select write carries 255 and
    succeeds, the byte is written, and the believed page is -1, the value
    that stands for "unknown". *)
Theorem signed_char_stores_page_255_as_unknown :
  let m := attached (qsfp28_on_page 0 1000) 1000 in
  let out := amzn_sfp_write x86_64 default_tunables (bus_ok 1 0) [0] (256 * 128) 1 m in
  fst (fst out) = 1 /\
  transfers PageSelect (snd out) = [EvTransfer PageSelect (select_msgs 80 255) 1] /\
  cur_page (sc (snd (fst out))) = -1.
Proof. vm_compute. repeat split. Qed.

(** What a page select write that succeeded leaves as the belief: the wanted
    page as a [char].  That is the page itself where [char] is unsigned,
    and [page - 256] for the pages from 128 on where it is signed. *)
Lemma page_select_belief
    (P : platform) (T : tunables) (bus : nat -> reply) (data : list Z)
    (ofs len flags : Z) (m m' : machine) (v : Z) (tr : list event)
    (msgs : list i2c_msg) (rc0 : Z) :
  amzn_sfp_rw P T bus data ofs len flags m = (v, m', tr) ->
  In (EvTransfer PageSelect msgs rc0) tr -> 0 <= rc0 ->
  0 <= ofs / 128 - 1 < 256 ->
  cur_page (sc m') = to_char P (ofs / 128 - 1) /\
  (char_is_signed P = false -> cur_page (sc m') = ofs / 128 - 1) /\
  (char_is_signed P = true -> 128 <= ofs / 128 - 1 ->
   cur_page (sc m') = ofs / 128 - 1 - 256).
Proof.
  intros E Hin Hrc Hpg.
  assert (Hb : cur_page (sc m') = to_char P (ofs / 128 - 1)).
  { rewrite rw_unfold in E.
    destruct (request_check (sc m) ofs len) as [e|];
      [injection E as <- <- <-; destruct Hin|].
    rewrite translate_unfold in E.
    assert (G : forall a r l,
               (let '(v0, m2, t2) := amzn_sfp_execute P T bus a r l flags data m in
                (v0, m2, EvLock :: [] ++ t2)) = (v, m', tr) -> False).
    { intros a r l X.
      destruct (amzn_sfp_execute _ _ _ _ _ _ _ _ m) as [[v2 m2] t2] eqn:Y.
      injection X as <- <- <-. apply execute_data in Y.
      destruct Y as (_ & rc1 & _ & _ & _ & Hps & _).
      destruct Hin as [X|X]; [discriminate|].
      exact (not_in_empty_transfers _ _ _ _ Hps X). }
    destruct (sfp_type (sc m) =? AMZN_SFP_TYPE_SFP_PLUS);
      [destruct (G _ _ _ E)|].
    destruct (is_qsfp (sfp_type (sc m))); [|destruct (G _ _ _ E)].
    destruct (ofs <? 128); [destruct (G _ _ _ E)|].
    destruct (ensure_page _ _ _ _ _ m) as [[r m1] t1] eqn:Ep.
    pose proof (ensure_page_select _ _ _ _ _ _ _ _ _ Ep) as Hsel.
    destruct r as [e|].
    - injection E as <- <- <-. destruct Hin as [X|X]; [discriminate|].
      now destruct (Hsel _ _ X) as (_ & Hk); destruct (Hk Hrc) as (_ & Hc & _).
    - destruct (amzn_sfp_execute _ _ _ _ _ _ _ _ m1) as [[v2 m2] t2] eqn:Y.
      injection E as <- <- <-. apply execute_data in Y.
      destruct Y as (Hsc & _). rewrite Hsc.
      now apply ensure_page_done in Ep. }
  split; [assumption|]. rewrite Hb. unfold to_char, to_schar, to_u8.
  split; intros ->; [|intros H]; dlia.
Qed.

(** * The settle delay *)

(** C3, as the driver has it.  The driver keeps no record of having written
    the page select register: before the data phase it sleeps exactly when
    the clock is inside the settle window of the time stamp, and the stamp
    is set by every successful read or write of the page select register, in
    this access or an earlier one.  The sleep comes right before the data
    transfer and asks for the whole [page_load_wait_ms]
    ([usleep_range(ms * 1000, ms * 1000 + 1000)]).  An access that has just
    read or written the page select register finds the clock at the stamp,
    and sleeps (for a window of 0 to 2^63 jiffies); an access that has not
    sleeps or not by the stamp it found. *)
Theorem settle_sleep_follows_time_stamp
    (P : platform) (T : tunables) (bus : nat -> reply) (data : list Z)
    (ofs len flags : Z) (m m' : machine) (v : Z) (tr : list event)
    (msgs : list i2c_msg) (rc0 : Z) :
  amzn_sfp_rw P T bus data ofs len flags m = (v, m', tr) ->
  In (EvTransfer DataPhase msgs rc0) tr ->
  let us := to_ulong (to_int (amzn_sfp_page_load_wait_ms T * 1000)) in
  exists pre now,
    tr = EvLock :: pre
         ++ (if settle_due P T (sc m') now
             then [EvSleep us (to_ulong (us + 1000))] else [])
         ++ [EvTransfer DataPhase msgs rc0; EvUnlock] /\
    sleeps pre = [] /\ transfers DataPhase pre = [] /\
    ((bus_events pre = [] /\ now = jiffies m /\ sc m' = sc m) \/
     (bus_events pre <> [] /\ now = cur_page_ts (sc m') /\
      (0 <= msecs_to_jiffies P (amzn_sfp_page_load_wait_ms T)
         < 9223372036854775808 ->
       settle_due P T (sc m') now = true))).
Proof.
  intros E Hin us.
  rewrite rw_unfold in E.
  destruct (request_check (sc m) ofs len) as [e|].
  { injection E as <- <- <-. destruct Hin. }
  destruct (amzn_sfp_translate _ _ _ _ _ _ m) as [[x m1] t1] eqn:Ex.
  assert (Hpre : sleeps t1 = [] /\ transfers DataPhase t1 = [] /\
                 ((bus_events t1 = [] /\ m1 = m) \/
                  (bus_events t1 <> [] /\
                   (forall a r l, x = Go a r l ->
                      cur_page_ts (sc m1) = jiffies m1 /\
                      0 <= jiffies m1 < 18446744073709551616)))).
  { rewrite translate_unfold in Ex.
    destruct (sfp_type (sc m) =? AMZN_SFP_TYPE_SFP_PLUS);
      [injection Ex as <- <- <-; repeat split; left; split; reflexivity|].
    destruct (is_qsfp (sfp_type (sc m)));
      [|injection Ex as <- <- <-; repeat split; left; split; reflexivity].
    destruct (ofs <? 128);
      [injection Ex as <- <- <-; repeat split; left; split; reflexivity|].
    destruct (ensure_page _ _ _ _ _ m) as [[r m2] t2] eqn:Ep.
    injection Ex as <- <- <-.
    pose proof (ensure_page_frame _ _ _ _ _ _ _ _ _ Ep) as (_ & _ & _ & Hd & Hs).
    do 2 (split; [assumption|]).
    destruct r as [e|].
    - right. split; [now apply ensure_page_abort in Ep|]. discriminate.
    - destruct (ensure_page_stamp _ _ _ _ _ _ _ _ Ep) as [(Hb & _ & Hm)|(Hb & Hts)].
      + left. now split.
      + right. split; [assumption|]. intros _ _ _ _. split; [assumption|].
        eapply ensure_page_clock; eassumption. }
  destruct Hpre as (Hs1 & Hd1 & Hcase).
  destruct x as [e | a r l].
  { injection E as <- <- <-. exfalso. destruct Hin as [X|X]; [discriminate|].
    exact (not_in_empty_transfers _ _ _ _ Hd1 X). }
  destruct (amzn_sfp_execute _ _ _ _ _ _ _ _ m1) as [[v2 m2] t2] eqn:Y.
  injection E as <- <- <-.
  apply execute_spec in Y. destruct Y as (Hsc & rp & Htr & _). cbv zeta in Htr.
  destruct Hin as [X|X]; [discriminate|].
  apply in_app_or in X. destruct X as [X|X];
    [exfalso; exact (not_in_empty_transfers _ _ _ _ Hd1 X)|].
  assert (Hev : EvTransfer DataPhase msgs rc0
                = EvTransfer DataPhase (data_msgs a flags r (chunk l) data) (rc rp)).
  { rewrite Htr in X. apply in_app_or in X. destruct X as [X|X].
    - exfalso. unfold settle_events in X.
      destruct (settle_due P T (sc m1) (jiffies m1));
        [destruct X as [X|X]|]; (discriminate || destruct X).
    - destruct X as [X|[X|[]]]; [now symmetry | discriminate]. }
  exists t1, (jiffies m1). rewrite Hev, Htr, Hsc.
  split; [reflexivity|]. do 2 (split; [assumption|]).
  destruct Hcase as [(Hb & ->)|(Hb & Hgo)].
  - left. repeat split; assumption.
  - right. destruct (Hgo _ _ _ eq_refl) as (Hts & Hrange).
    split; [assumption|]. split; [congruence|].
    intros Hw. rewrite <- Hts. apply settle_due_at_stamp; [lia | assumption].
Qed.

(** * The driver at work *)

(** The claim of C1 fails for the data phase: the session believes page 0,
    freshly stamped; a read at offset 128 needs no page transfer; its data
    transfer fails with -5 and the believed page is still 0. *)
Lemma data_failure_keeps_belief :
  let m := attached (qsfp28_on_page 0 1000) 1000 in
  let out := amzn_sfp_read x86_64 default_tunables (bus_ok (-5) 0) [] 128 1 m in
  fst (fst out) = -5 /\
  bus_events (snd out)
  = [EvTransfer DataPhase (data_msgs 80 I2C_M_RD 128 1 []) (-5)] /\
  cur_page (sc (snd (fst out))) = 0 /\
  cur_page (sc (snd (fst out))) <> -1.
Proof. vm_compute. repeat split; discriminate. Qed.

(** The claim of C3 fails for an access that only reads the page select
    register: a fresh QSFP28 session, a read of 50 bytes at offset 200, the
    module on page 0.  The access verifies the page, writes nothing to the
    page select register, and sleeps before its data phase. *)
Lemma settle_sleep_without_page_write :
  let m := attached (amzn_sfp_probe 80 AMZN_SFP_TYPE_QSFP28) 1000 in
  let out := amzn_sfp_read x86_64 default_tunables (bus_ok 2 0) [] 200 50 m in
  fst (fst out) = 50 /\
  transfers PageSelect (snd out) = [] /\
  sleeps (snd out) = [EvSleep 4000 5000].
Proof. vm_compute. repeat split. Qed.

(** The claim of C4 fails when the module changes page between the runs:
    the session believes page 0; the first run selects page 3; four seconds
    later the second run, for page 3 again, reads the register back, finds
    page 0, and selects page 3 a second time.  No transfer failed. *)
Lemma second_run_rewrites_after_page_drift :
  let ok1 := {| rc := 1; rx := 0; ticks := 0 |} in
  let ok2 := {| rc := 2; rx := 0; ticks := 0 |} in
  let bus := bus_script [ok1; ok2; ok1] ok1 in
  let m1 := attached (qsfp28_on_page 0 1000) 1000 in
  let run1 := ensure_page arm64 default_tunables bus 80 3 m1 in
  let m2 := {| sc := sc (snd (fst run1)); jiffies := 2000;
               ncall := ncall (snd (fst run1)) |} in
  let run2 := ensure_page arm64 default_tunables bus 80 3 m2 in
  fst (fst run1) = None /\ fst (fst run2) = None /\
  transfers PageSelect (snd run1) = [EvTransfer PageSelect (select_msgs 80 3) 1] /\
  transfers PageSelect (snd run2) = [EvTransfer PageSelect (select_msgs 80 3) 1] /\
  length (transfers PageSelect (snd run1 ++ snd run2)) = 2%nat.
Proof. vm_compute. repeat split. Qed.

(** The claim of C7 fails where two checks fail at once: a request of
    length zero at the end of an SFP_PLUS session is refused as out of
    range, not as an invalid argument. *)
Lemma zero_length_past_the_end_is_out_of_range :
  let m := attached (amzn_sfp_probe 80 AMZN_SFP_TYPE_SFP_PLUS) 1000 in
  let out := amzn_sfp_read x86_64 default_tunables (bus_ok 2 0) [] 512 0 m in
  out = (- ESPIPE, m, []) /\ fst (fst out) <> - EINVAL.
Proof. vm_compute. split; [reflexivity | discriminate]. Qed.

(** Why the third check is stated for an end that fits 64 bits: the sum is
    taken modulo 2^64, and a length of 2^64 - 1 at offset 1 passes. *)
Lemma request_end_wraps :
  let m := attached (amzn_sfp_probe 80 AMZN_SFP_TYPE_SFP_PLUS) 1000 in
  request_check (sc m) 1 18446744073709551615 = None /\
  fst (fst (amzn_sfp_read x86_64 default_tunables (bus_ok 2 0) []
              1 18446744073709551615 m)) = 64.
Proof. vm_compute. split; reflexivity. Qed.

(** The second scenario of the specification: ten bytes written at offset
    300 of an SFP_PLUS session go to the second bus address, register 44,
    in one message of eleven bytes. *)
Lemma sfp_plus_write_at_300 :
  let m := attached (amzn_sfp_probe 80 AMZN_SFP_TYPE_SFP_PLUS) 1000 in
  amzn_sfp_write x86_64 default_tunables (bus_ok 1 0)
    [1; 2; 3; 4; 5; 6; 7; 8; 9; 10] 300 10 m
  = (10, {| sc := sc m; jiffies := 1000; ncall := 1 |},
     [EvLock;
      EvTransfer DataPhase
        [{| addr := 81; flags := 0; len := 11;
            buf := [44; 1; 2; 3; 4; 5; 6; 7; 8; 9; 10] |}] 1;
      EvUnlock]).
Proof. vm_compute. reflexivity. Qed.

(** * The theorems at concrete inputs *)

Lemma request_checks_in_order_witness :
  let m := attached (amzn_sfp_probe 80 AMZN_SFP_TYPE_SFP_PLUS) 1000 in
  amzn_sfp_read x86_64 default_tunables (bus_ok 2 0) [] 600 8 m
  = (- ESPIPE, m, []) /\
  amzn_sfp_read x86_64 default_tunables (bus_ok 2 0) [] 100 0 m
  = (- EINVAL, m, []) /\
  amzn_sfp_read x86_64 default_tunables (bus_ok 2 0) [] 500 20 m
  = (- ENOSPC, m, []).
Proof.
  intros m. split; [|split].
  - apply (proj1 (request_checks_in_order x86_64 default_tunables (bus_ok 2 0)
                    [] 600 8 I2C_M_RD m ltac:(lia) ltac:(lia))).
    right. cbn. lia.
  - apply (proj1 (proj2 (request_checks_in_order x86_64 default_tunables
                           (bus_ok 2 0) [] 100 0 I2C_M_RD m
                           ltac:(lia) ltac:(lia)))).
    + cbn. lia.
    + reflexivity.
  - apply (proj2 (proj2 (request_checks_in_order x86_64 default_tunables
                           (bus_ok 2 0) [] 500 20 I2C_M_RD m
                           ltac:(lia) ltac:(lia)))).
    + cbn. lia.
    + discriminate.
    + cbn. lia.
Defined.

Lemma sfp_plus_transfer_stays_in_device_witness :
  let m := attached (amzn_sfp_probe 80 AMZN_SFP_TYPE_SFP_PLUS) 1000 in
  let out := amzn_sfp_write x86_64 default_tunables (bus_ok 1 0)
               [1; 2; 3; 4; 5; 6; 7; 8; 9; 10] 250 10 m in
  exists msgs rc0,
    bus_events (snd out) = [EvTransfer DataPhase msgs rc0] /\
    Forall (fun x => addr x = 80 + 250 / 256) msgs /\
    msgs_reg msgs = Some (250 mod 256) /\
    msgs_count msgs = Z.min (Z.min 10 (256 - 250 mod 256)) 64 /\
    0 < msgs_count msgs <= 256 - 250 mod 256 /\
    250 mod 256 + msgs_count msgs <= 256.
Proof.
  intros m out.
  apply (sfp_plus_transfer_stays_in_device x86_64 default_tunables (bus_ok 1 0)
           [1; 2; 3; 4; 5; 6; 7; 8; 9; 10] 250 10 0 m (snd (fst out))
           (fst (fst out)) (snd out)).
  - reflexivity.
  - split; [reflexivity | cbn; lia].
  - unfold valid_request; cbn; lia.
  - reflexivity.
Defined.

Lemma qsfp_translation_witness :
  let m := attached (amzn_sfp_probe 80 AMZN_SFP_TYPE_QSFP28) 1000 in
  let out := amzn_sfp_read x86_64 default_tunables (bus_ok 2 1) [] 200 50 m in
  0 <= 200 / 128 - 1 < 256 /\ 128 <= 200 mod 128 + 128 < 256 /\
  (forall msgs rc0,
     In (EvTransfer PageSelect msgs rc0) (snd out) ->
     msgs = select_msgs 80 (200 / 128 - 1)) /\
  (forall msgs rc0,
     In (EvTransfer DataPhase msgs rc0) (snd out) ->
     msgs_reg msgs = Some (200 mod 128 + 128) /\
     0 < msgs_count msgs <= 256 - (200 mod 128 + 128) /\
     msgs_count msgs <= 50 /\
     200 mod 128 + 128 + msgs_count msgs <= 256) /\
  ((exists msgs rc0,
      transfers DataPhase (snd out) = [EvTransfer DataPhase msgs rc0])
   \/ (fst (fst out) < 0 /\ transfers DataPhase (snd out) = [] /\
       exists ph msgs, ph <> DataPhase /\
                       In (EvTransfer ph msgs (fst (fst out))) (snd out))).
Proof.
  intros m out.
  refine (proj2 (proj2 (qsfp_translation x86_64 default_tunables (bus_ok 2 1) []
                          200 50 I2C_M_RD m (snd (fst out)) (fst (fst out))
                          (snd out) eq_refl _ _ eq_refl)) _).
  - split; [reflexivity | cbn; lia].
  - unfold valid_request; cbn; lia.
  - lia.
Defined.

Lemma successful_access_returns_clamped_length_witness :
  let m := attached (amzn_sfp_probe 80 AMZN_SFP_TYPE_QSFP_DD) 1000 in
  let out := amzn_sfp_read x86_64 default_tunables (bus_ok 2 0) [] 100 100 m in
  fst (fst out) = 28 /\
  (exists msgs rc0,
     transfers DataPhase (snd out) = [EvTransfer DataPhase msgs rc0] /\
     msgs_count msgs = fst (fst out)) /\
  0 < fst (fst out) <= 100 /\ fst (fst out) <= 64 /\
  fst (fst out) = Z.min (Z.min 100 (128 - 100)) 64.
Proof.
  intros m out.
  assert (Hok : session_ok (sc m)) by (split; [reflexivity | cbn; lia]).
  assert (Hv : valid_request (sc m) 100 100) by (unfold valid_request; cbn; lia).
  assert (Hpos : 0 <= fst (fst out)) by (vm_compute; discriminate).
  destruct (successful_access_returns_clamped_length x86_64 default_tunables
              (bus_ok 2 0) [] 100 100 I2C_M_RD m (snd (fst out))
              (fst (fst out)) (snd out) Hok Hv eq_refl Hpos)
    as (H1 & H2 & H3 & _ & H5 & _).
  split; [reflexivity|]. split; [exact H1|]. split; [exact H2|].
  split; [exact H3|]. apply H5; [reflexivity | lia].
Defined.

Lemma unpaged_access_leaves_page_cache_witness :
  let m := attached (amzn_sfp_probe 80 7) 1000 in
  let out := amzn_sfp_read x86_64 default_tunables (bus_ok 2 0) [] 127 1 m in
  sc (snd (fst out)) = sc m /\
  cur_page (sc (snd (fst out))) = -1 /\
  cur_page_ts (sc (snd (fst out))) = 0 /\
  transfers PageVerify (snd out) = [] /\
  transfers PageSelect (snd out) = [] /\
  exists msgs rc0, bus_events (snd out) = [EvTransfer DataPhase msgs rc0].
Proof.
  intros m out.
  apply (unpaged_access_leaves_page_cache x86_64 default_tunables (bus_ok 2 0) []
           127 1 I2C_M_RD m (snd (fst out)) (fst (fst out)) (snd out)
           eq_refl eq_refl).
Defined.

Lemma stale_belief_is_verified_first_witness :
  let m := attached (qsfp28_on_page 0 1000) 2000 in
  let out := amzn_sfp_read x86_64 default_tunables (bus_ok 2 0) [] 128 1 m in
  exists rc0 rest,
    snd out = EvLock :: EvTransfer PageVerify (verify_msgs 80) rc0 :: rest /\
    transfers PageVerify rest = [].
Proof.
  intros m out.
  refine (proj1 (stale_belief_is_verified_first x86_64 default_tunables
                   (bus_ok 2 0) [] 128 1 I2C_M_RD m (snd (fst out))
                   (fst (fst out)) (snd out) eq_refl _ _ _ eq_refl) _).
  - split; [reflexivity | cbn; lia].
  - unfold valid_request; cbn; lia.
  - lia.
  - right. reflexivity.
Defined.

Lemma second_ensure_page_skips_write_witness :
  let ok1 := {| rc := 1; rx := 0; ticks := 0 |} in
  let ok2 := {| rc := 2; rx := 3; ticks := 0 |} in
  let bus := bus_script [ok1; ok2] ok1 in
  let m1 := attached (qsfp28_on_page 0 1000) 1000 in
  let run1 := ensure_page arm64 default_tunables bus 80 3 m1 in
  let m2 := {| sc := sc (snd (fst run1)); jiffies := 2000;
               ncall := ncall (snd (fst run1)) |} in
  let run2 := ensure_page arm64 default_tunables bus 80 3 m2 in
  transfers PageSelect (snd run2) = [] /\
  (length (transfers PageSelect (snd run1 ++ snd run2)) <= 1)%nat /\
  (page_is_stale arm64 default_tunables (sc m2) (jiffies m2) = false ->
   fst (fst run2) = None /\ snd (fst run2) = m2 /\ snd run2 = []).
Proof.
  intros ok1 ok2 bus m1 run1 m2 run2.
  apply (second_ensure_page_skips_write arm64 default_tunables default_tunables
           bus bus 80 3 m1 (snd (fst run1)) m2 (snd (fst run2))
           (fst (fst run2)) (snd run1) (snd run2) eq_refl eq_refl eq_refl).
  intros _ _. reflexivity.
Defined.

Lemma page_failure_invalidates_belief_witness :
  let m := attached (amzn_sfp_probe 80 AMZN_SFP_TYPE_QSFP28) 1000 in
  let out := amzn_sfp_read x86_64 default_tunables (bus_ok (-6) 0) [] 200 50 m in
  In (EvTransfer PageVerify (verify_msgs 80) (-6)) (snd out) /\
  cur_page (sc (snd (fst out))) = -1 /\ fst (fst out) = -6 /\
  transfers DataPhase (snd out) = [].
Proof.
  intros m out.
  assert (Hin : In (EvTransfer PageVerify (verify_msgs 80) (-6)) (snd out))
    by (right; left; reflexivity).
  split; [exact Hin|].
  apply (proj1 (page_failure_invalidates_belief x86_64 default_tunables
                  (bus_ok (-6) 0) [] 200 50 I2C_M_RD m
                  (snd (fst out)) (fst (fst out)) (snd out)
                  eq_refl eq_refl)
           PageVerify (verify_msgs 80) (-6) Hin);
    [discriminate | reflexivity].
Defined.

Lemma settle_sleep_follows_time_stamp_witness :
  let m := attached (amzn_sfp_probe 80 AMZN_SFP_TYPE_QSFP28) 1000 in
  let out := amzn_sfp_read x86_64 default_tunables (bus_ok 2 1) [] 200 50 m in
  let msgs := data_msgs 80 I2C_M_RD 200 50 [] in
  exists pre now,
    snd out = EvLock :: pre
         ++ (if settle_due x86_64 default_tunables (sc (snd (fst out))) now
             then [EvSleep 4000 5000] else [])
         ++ [EvTransfer DataPhase msgs 2; EvUnlock] /\
    sleeps pre = [] /\ transfers DataPhase pre = [] /\
    ((bus_events pre = [] /\ now = jiffies m /\ sc (snd (fst out)) = sc m) \/
     (bus_events pre <> [] /\ now = cur_page_ts (sc (snd (fst out))) /\
      (0 <= msecs_to_jiffies x86_64 4 < 9223372036854775808 ->
       settle_due x86_64 default_tunables (sc (snd (fst out))) now = true))).
Proof.
  intros m out msgs.
  apply (settle_sleep_follows_time_stamp x86_64 default_tunables (bus_ok 2 1) []
           200 50 I2C_M_RD m (snd (fst out)) (fst (fst out)) (snd out)
           msgs 2 eq_refl).
  do 4 right. left. reflexivity.
Defined.

(** * More of the driver

    What the accesses keep and never do, what goes on the bus, and the
    life of a session from attach to detach. *)

(** ** Every access *)

(** X1.  An access that is refused leaves no event.  Any other access takes
    the lock first and releases it last, on every path, and in between its
    events come in one order and at most once each: the read of the page
    select register, the notice, the write of the page select register, the
    settle sleep, the data transfer. *)
Theorem access_events_in_order
    (P : platform) (T : tunables) (bus : nat -> reply) (data : list Z)
    (ofs len flags : Z) (m m' : machine) (v : Z) (tr : list event) :
  amzn_sfp_rw P T bus data ofs len flags m = (v, m', tr) ->
  (request_check (sc m) ofs len <> None /\ tr = []) \/
  (request_check (sc m) ofs len = None /\
   hd_error tr = Some EvLock /\ last tr EvLock = EvUnlock /\
   StronglySorted Z.lt (map rank tr)).
Proof.
  intros E. rewrite rw_unfold in E.
  destruct (request_check (sc m) ofs len) as [e|] eqn:Hc.
  - injection E as <- <- <-. left. split; [discriminate | reflexivity].
  - right. split; [reflexivity|]. revert E.
    destruct m as [[sz a t p ts] j n]. drv_unfold.
    repeat drv_case; intros X; injection X as <- <- <-;
      (split; [reflexivity|]); (split; [reflexivity|]); cbn [map rank];
      repeat (constructor; try reflexivity).
Qed.

Lemma clamp_to_positive (limit len reg : Z) :
  0 < len < 18446744073709551616 -> 0 <= reg < limit -> limit <= 256 ->
  0 < clamp_to limit len reg.
Proof.
  intros Hl Hr Hlim. unfold clamp_to, to_ulong.
  destruct (_ >? limit); [rewrite Z.mod_small|]; lia.
Qed.

Lemma request_check_accepts (s : amzn_sfp_softc) (ofs len : Z) :
  request_check s ofs len = None -> 0 <= ofs /\ len <> 0.
Proof.
  unfold request_check.
  destruct ((ofs <? 0) || _) eqn:E1; [discriminate|].
  destruct (len =? 0) eqn:E2; [discriminate|].
  intros _. bool_hyps. lia.
Qed.

Lemma data_result_sign (rc0 n l : Z) :
  0 < l -> data_result rc0 n l < 0 \/ data_result rc0 n l = l.
Proof.
  intros Hl. unfold data_result.
  destruct (rc0 <? 0) eqn:E1; [left; arith|].
  destruct (negb _); [left; arith | now right].
Qed.

(** X2.  An access never returns zero: for an offset that is a [loff_t] and
    a length that is a [size_t], it returns a negative error or a count
    between 1 and 64, so that a caller that loops on short counts always
    moves on. *)
Theorem access_returns_error_or_progress
    (P : platform) (T : tunables) (bus : nat -> reply) (data : list Z)
    (ofs len flags : Z) (m m' : machine) (v : Z) (tr : list event) :
  - 9223372036854775808 <= ofs < 9223372036854775808 ->
  0 <= len < 18446744073709551616 ->
  amzn_sfp_rw P T bus data ofs len flags m = (v, m', tr) ->
  v < 0 \/ 1 <= v <= 64.
Proof.
  intros Hofs Hlen E. rewrite rw_unfold in E.
  destruct (request_check (sc m) ofs len) as [e|] eqn:Hc.
  { injection E as <- <- <-. left. unfold request_check in Hc.
    destruct (_ || _); [injection Hc as <-; arith|].
    destruct (len =? 0); [injection Hc as <-; arith|].
    destruct (_ >? _); [injection Hc as <-; arith | discriminate]. }
  apply request_check_accepts in Hc. destruct Hc as [Ho Hl].
  assert (G : forall a r l m1 t1,
             (let '(v0, m2, t2) := amzn_sfp_execute P T bus a r l flags data m1 in
              (v0, m2, EvLock :: t1 ++ t2)) = (v, m', tr) ->
             0 < l -> v < 0 \/ 1 <= v <= 64).
  { intros a r l m1 t1 X Hpos.
    destruct (amzn_sfp_execute _ _ _ _ _ _ _ _ m1) as [[v2 m2] t2] eqn:Y.
    injection X as <- <- <-. apply execute_spec in Y.
    destruct Y as (_ & rp & _ & ->). rewrite chunk_spec.
    destruct (data_result_sign (rc rp)
                (Z.of_nat (length (data_msgs a flags r (Z.min l 64) data)))
                (Z.min l 64)) as [H|H]; [lia | now left | right; lia]. }
  rewrite translate_unfold in E.
  destruct (sfp_type (sc m) =? AMZN_SFP_TYPE_SFP_PLUS).
  { eapply G; [eassumption|]. apply clamp_to_positive; [lia | | lia].
    unfold to_u8. dlia. }
  destruct (is_qsfp (sfp_type (sc m))); [|eapply G; [eassumption | lia]].
  destruct (ofs <? 128) eqn:Eo.
  { eapply G; [eassumption|]. apply clamp_to_positive; [lia | | lia].
    unfold to_u8. bool_hyps. dlia. }
  destruct (ensure_page _ _ _ _ _ m) as [[r m1] t1] eqn:Ep.
  destruct r as [e|].
  - injection E as <- <- <-. left. now apply ensure_page_abort in Ep.
  - eapply G; [eassumption|]. apply clamp_to_positive; [lia | | lia].
    unfold to_u8. dlia.
Qed.

Lemma access_frame
    (P : platform) (T : tunables) (bus : nat -> reply) (data : list Z)
    (ofs len flags : Z) (m m' : machine) (v : Z) (tr : list event) :
  amzn_sfp_rw P T bus data ofs len flags m = (v, m', tr) ->
  attr_size (sc m') = attr_size (sc m) /\
  client_addr (sc m') = client_addr (sc m) /\
  sfp_type (sc m') = sfp_type (sc m).
Proof.
  intros E. rewrite rw_unfold in E.
  destruct (request_check (sc m) ofs len) as [e|];
    [injection E as <- <- <-; repeat split|].
  destruct (amzn_sfp_translate _ _ _ _ _ _ m) as [[x m1] t1] eqn:Ex.
  assert (H1 : attr_size (sc m1) = attr_size (sc m) /\
               client_addr (sc m1) = client_addr (sc m) /\
               sfp_type (sc m1) = sfp_type (sc m)).
  { rewrite translate_unfold in Ex.
    destruct (_ =? _); [injection Ex as <- <- <-; repeat split|].
    destruct (is_qsfp _); [|injection Ex as <- <- <-; repeat split].
    destruct (_ <? _); [injection Ex as <- <- <-; repeat split|].
    destruct (ensure_page _ _ _ _ _ m) as [[r m2] t2] eqn:Ep.
    injection Ex as <- <- <-. apply ensure_page_frame in Ep. tauto. }
  destruct x as [e | a r l]; [injection E as <- <- <-; assumption|].
  destruct (amzn_sfp_execute _ _ _ _ _ _ _ _ m1) as [[v2 m2] t2] eqn:Y.
  injection E as <- <- <-. apply execute_spec in Y.
  destruct Y as (-> & _). assumption.
Qed.

(** X3.  The size of the file, the bus address and the class of a session
    never change: after any list of requests, served at any times with any
    settings of the knobs and any answers of the adapter, they are what they
    were. *)
Theorem session_identity_is_kept
    (P : platform) (bus : nat -> reply) (rqs : list request) (m : machine) :
  attr_size (sc (serve P bus rqs m)) = attr_size (sc m) /\
  client_addr (sc (serve P bus rqs m)) = client_addr (sc m) /\
  sfp_type (sc (serve P bus rqs m)) = sfp_type (sc m).
Proof.
  revert m. induction rqs as [|r rest IH]; intros m; [repeat split|].
  cbn [serve].
  destruct (amzn_sfp_rw _ _ _ _ _ _ _ (idle (rq_idle r) m)) as [[v m1] tr] eqn:E.
  apply access_frame in E. cbn [idle sc] in E.
  destruct (IH m1) as (H1 & H2 & H3). destruct E as (E1 & E2 & E3).
  repeat split; congruence.
Qed.

Section BeliefRange.

Variable P : platform.

Lemma to_char_in_range (x : Z) (s : amzn_sfp_softc) :
  cur_page s = to_char P x -> belief_in_range P s.
Proof.
  unfold belief_in_range, to_char, to_schar, to_u8.
  destruct (char_is_signed P); intros ->; dlia.
Qed.

Lemma unknown_in_range (s : amzn_sfp_softc) :
  cur_page s = -1 -> belief_in_range P s.
Proof.
  unfold belief_in_range. destruct (char_is_signed P); intros ->; lia.
Qed.

Lemma ensure_page_range (T : tunables) (bus : nat -> reply) (a pg : Z)
    (m m' : machine) r tr :
  ensure_page P T bus a pg m = (r, m', tr) ->
  belief_in_range P (sc m) /\ stamp_in_range (sc m) ->
  belief_in_range P (sc m') /\ stamp_in_range (sc m').
Proof.
  destruct m as [[sz a0 t p ts] j n]; drv_run;
    intros X; injection X as <- <- <-; intros [Hb Hs];
    cbn [sc] in *; (split;
      [ assumption
        || (apply unknown_in_range; reflexivity)
        || (eapply to_char_in_range; reflexivity)
      | assumption
        || (unfold stamp_in_range, to_ulong; cbn [cur_page_ts]; dlia) ]).
Qed.

Lemma access_range (T : tunables) (bus : nat -> reply) (data : list Z)
    (ofs len flags : Z) (m m' : machine) (v : Z) (tr : list event) :
  amzn_sfp_rw P T bus data ofs len flags m = (v, m', tr) ->
  belief_in_range P (sc m) /\ stamp_in_range (sc m) ->
  belief_in_range P (sc m') /\ stamp_in_range (sc m').
Proof.
  intros E H. rewrite rw_unfold in E.
  destruct (request_check (sc m) ofs len) as [e|];
    [injection E as <- <- <-; assumption|].
  destruct (amzn_sfp_translate _ _ _ _ _ _ m) as [[x m1] t1] eqn:Ex.
  assert (H1 : belief_in_range P (sc m1) /\ stamp_in_range (sc m1)).
  { rewrite translate_unfold in Ex.
    destruct (_ =? _); [injection Ex as <- <- <-; assumption|].
    destruct (is_qsfp _); [|injection Ex as <- <- <-; assumption].
    destruct (_ <? _); [injection Ex as <- <- <-; assumption|].
    destruct (ensure_page _ _ _ _ _ m) as [[r m2] t2] eqn:Ep.
    injection Ex as <- <- <-. eapply ensure_page_range; eassumption. }
  destruct x as [e | a r l]; [injection E as <- <- <-; assumption|].
  destruct (amzn_sfp_execute _ _ _ _ _ _ _ _ m1) as [[v2 m2] t2] eqn:Y.
  injection E as <- <- <-. apply execute_spec in Y.
  destruct Y as (-> & _). assumption.
Qed.

End BeliefRange.

(** X4.  The believed page of a session is always -1 or a value of a
    [char] (0 to 255 where [char] is unsigned, -128 to 127 where it is
    signed), and its time stamp is always an [unsigned long]: [amzn_sfp_probe]
    makes it so, and any list of requests keeps it so, whatever the adapter
    answers. *)
Theorem belief_stays_in_range
    (P : platform) (bus : nat -> reply) (rqs : list request) :
  (forall a dd, belief_in_range P (amzn_sfp_probe a dd) /\
                stamp_in_range (amzn_sfp_probe a dd)) /\
  (forall m,
     belief_in_range P (sc m) /\ stamp_in_range (sc m) ->
     belief_in_range P (sc (serve P bus rqs m)) /\
     stamp_in_range (sc (serve P bus rqs m))).
Proof.
  split.
  - intros a dd. split; [now apply unknown_in_range|].
    unfold stamp_in_range. cbn. lia.
  - induction rqs as [|r rest IH]; intros m H; [assumption|].
    cbn [serve].
    destruct (amzn_sfp_rw _ _ _ _ _ _ _ (idle (rq_idle r) m))
      as [[v m1] tr] eqn:E.
    apply IH. eapply access_range; [eassumption|]. exact H.
Qed.

(** ** The data phase *)

Lemma access_data_phase
    (P : platform) (T : tunables) (bus : nat -> reply) (data : list Z)
    (ofs len flags : Z) (m m' : machine) (v : Z) (tr : list event)
    (msgs : list i2c_msg) (rc0 : Z) :
  session_ok (sc m) ->
  valid_request (sc m) ofs len ->
  amzn_sfp_rw P T bus data ofs len flags m = (v, m', tr) ->
  In (EvTransfer DataPhase msgs rc0) tr ->
  exists a r n,
    1 <= n <= 64 /\ n <= len /\
    msgs = data_msgs a flags r n data /\
    v = data_result rc0 (Z.of_nat (length msgs)) n.
Proof.
  intros Hok Hv E Hin.
  pose proof (session_size_bound _ Hok) as Hsz.
  pose proof (probe_size_bound (sfp_type (sc m))) as Hps.
  destruct Hok as [Hsize _]. rewrite <- Hsize in Hps.
  rewrite rw_unfold, (request_check_valid _ _ _ Hv Hsz) in E.
  destruct Hv as (Ho & Hl & Hs).
  destruct (amzn_sfp_translate _ _ _ _ _ _ m) as [[x m1] t1] eqn:Ex.
  assert (Hx : transfers DataPhase t1 = [] /\
               forall a r l, x = Go a r l -> 1 <= l <= len).
  { rewrite translate_unfold in Ex.
    destruct (_ =? _).
    { injection Ex as <- <- <-. split; [reflexivity|].
      intros a r l X. injection X as _ _ <-.
      unfold to_u8. rewrite Z.mod_mod by lia.
      rewrite clamp_to_spec by dlia. dlia. }
    destruct (is_qsfp _);
      [|injection Ex as <- <- <-; split; [reflexivity|];
        intros a r l X; injection X as _ _ <-; lia].
    destruct (ofs <? 128) eqn:Eo.
    { injection Ex as <- <- <-. split; [reflexivity|].
      intros a r l X. injection X as _ _ <-. bool_hyps.
      unfold to_u8. rewrite Z.mod_small by lia.
      rewrite clamp_to_spec by dlia. dlia. }
    destruct (ensure_page _ _ _ _ _ m) as [[r0 m2] t2] eqn:Ep.
    injection Ex as <- <- <-. apply ensure_page_frame in Ep.
    split; [tauto|]. intros a r l X. destruct r0; [discriminate|].
    injection X as _ _ <-.
    assert (Hreg : to_u8 (ofs mod 128 + 128) = ofs mod 128 + 128)
      by (unfold to_u8; apply Z.mod_small; dlia).
    rewrite Hreg, clamp_to_spec by dlia. dlia. }
  destruct Hx as [Hd1 Hl1].
  destruct x as [e | a r l].
  { injection E as <- <- <-. exfalso. destruct Hin as [X|X]; [discriminate|].
    exact (not_in_empty_transfers _ _ _ _ Hd1 X). }
  specialize (Hl1 _ _ _ eq_refl).
  destruct (amzn_sfp_execute _ _ _ _ _ _ _ _ m1) as [[v2 m2] t2] eqn:Y.
  injection E as <- <- <-. apply execute_spec in Y.
  destruct Y as (_ & rp & Htr & Hv2). cbv zeta in *.
  destruct Hin as [X|X]; [discriminate|].
  apply in_app_or in X. destruct X as [X|X];
    [exfalso; exact (not_in_empty_transfers _ _ _ _ Hd1 X)|].
  apply in_transfers in X.
  rewrite Htr, transfers_app, transfers_settle in X.
  destruct X as [X|[]].
  apply (f_equal (fun e => match e with
                           | EvTransfer _ ms c => (ms, c)
                           | _ => ([], 0)
                           end)) in X.
  cbv beta iota in X. injection X as <- <-.
  exists a, r, (chunk l). rewrite chunk_spec in *.
  repeat split; try lia; assumption.
Qed.

(** X5.  What the data phase of a valid request puts on the bus.  A read is
    one transfer of two messages to one address: a write of one byte, the
    register, and a read of [n] bytes.  A write is one message of [n + 1]
    bytes: the register, then the first [n] bytes of the caller's buffer.
    [n] is between 1 and 64 and not above the length asked for. *)
Theorem data_phase_on_the_wire
    (P : platform) (T : tunables) (bus : nat -> reply) (data : list Z)
    (ofs len flags : Z) (m m' : machine) (v : Z) (tr : list event)
    (msgs : list i2c_msg) (rc0 : Z) :
  session_ok (sc m) ->
  valid_request (sc m) ofs len ->
  amzn_sfp_rw P T bus data ofs len flags m = (v, m', tr) ->
  In (EvTransfer DataPhase msgs rc0) tr ->
  exists a r n,
    1 <= n <= 64 /\ n <= len /\
    (flags = I2C_M_RD ->
     msgs = [ {| addr := a; flags := 0; len := 1; buf := [r] |};
              {| addr := a; flags := I2C_M_RD; len := n; buf := [] |} ]) /\
    (flags <> I2C_M_RD ->
     msgs = [ {| addr := a; flags := 0; len := n + 1;
                 buf := r :: firstn (Z.to_nat n) data |} ] /\
     (len <= Z.of_nat (length data) ->
      Z.of_nat (length (r :: firstn (Z.to_nat n) data)) = n + 1)).
Proof.
  intros Hok Hv E Hin.
  destruct (access_data_phase _ _ _ _ _ _ _ _ _ _ _ _ _ Hok Hv E Hin)
    as (a & r & n & Hn & Hnl & -> & _).
  exists a, r, n. do 2 (split; [assumption|]).
  unfold data_msgs, to_u16. split.
  - intros ->. cbn [Z.eqb I2C_M_RD Pos.eqb]. now rewrite Z.mod_small by lia.
  - intros Hf. apply Z.eqb_neq in Hf. rewrite Hf.
    rewrite Z.mod_small by lia. split; [reflexivity|].
    intros Hd. cbn [length]. rewrite length_firstn. lia.
Qed.

(** X6.  What an access returns once its data phase has run: a negative
    return of [i2c_transfer] as it is; [-EPIPE] when the adapter reports any
    other number of messages than the transfer had (2 for a read, 1 for a
    write); the number of payload bytes of the transfer otherwise. *)
Theorem data_phase_return_value
    (P : platform) (T : tunables) (bus : nat -> reply) (data : list Z)
    (ofs len flags : Z) (m m' : machine) (v : Z) (tr : list event)
    (msgs : list i2c_msg) (rc0 : Z) :
  session_ok (sc m) ->
  valid_request (sc m) ofs len ->
  amzn_sfp_rw P T bus data ofs len flags m = (v, m', tr) ->
  In (EvTransfer DataPhase msgs rc0) tr ->
  let nmsgs := if flags =? I2C_M_RD then 2 else 1 in
  Z.of_nat (length msgs) = nmsgs /\
  (rc0 < 0 -> v = rc0) /\
  (0 <= rc0 -> rc0 <> nmsgs -> v = - EPIPE) /\
  (rc0 = nmsgs -> v = msgs_count msgs /\ 1 <= v <= 64).
Proof.
  intros Hok Hv E Hin nmsgs.
  destruct (access_data_phase _ _ _ _ _ _ _ _ _ _ _ _ _ Hok Hv E Hin)
    as (a & r & n & Hn & Hnl & -> & ->).
  destruct (data_msgs_obs a flags r n data) as (_ & Hc & _ & Hlen); [lia|].
  rewrite Hlen, Hc. fold nmsgs. unfold data_result.
  split; [reflexivity|]. split; [|split].
  - intros H. now replace (rc0 <? 0) with true by (symmetry; apply Z.ltb_lt; lia).
  - intros H H'. replace (rc0 <? 0) with false by (symmetry; apply Z.ltb_ge; lia).
    now replace (rc0 =? nmsgs) with false by (symmetry; apply Z.eqb_neq; lia).
  - intros ->. assert (0 < nmsgs) by (subst nmsgs; destruct (_ =? _); lia).
    replace (nmsgs <? 0) with false by (symmetry; apply Z.ltb_ge; lia).
    rewrite Z.eqb_refl. cbn [negb]. split; [reflexivity | lia].
Qed.

(** ** The page phase *)

Lemma upper_access_unfold
    (P : platform) (T : tunables) (bus : nat -> reply) (data : list Z)
    (ofs len flags : Z) (m : machine) :
  is_qsfp (sfp_type (sc m)) = true ->
  session_ok (sc m) ->
  valid_request (sc m) ofs len ->
  128 <= ofs ->
  amzn_sfp_rw P T bus data ofs len flags m =
  let '(r, m1, t1) :=
    ensure_page P T bus (client_addr (sc m)) (ofs / 128 - 1) m in
  match r with
  | Some e => (e, m1, EvLock :: t1)
  | None =>
      let '(v, m2, t2) :=
        amzn_sfp_execute P T bus (client_addr (sc m))
          (to_u8 (ofs mod 128 + 128))
          (clamp_to 256 len (to_u8 (ofs mod 128 + 128))) flags data m1 in
      (v, m2, EvLock :: t1 ++ t2)
  end.
Proof.
  intros Hq Hok Hv Hup.
  pose proof (session_size_bound _ Hok) as Hsz.
  rewrite rw_unfold, (request_check_valid _ _ _ Hv Hsz), translate_unfold,
    (qsfp_not_sfp_plus _ Hq), Hq.
  replace (ofs <? 128) with false by (symmetry; apply Z.ltb_ge; lia).
  destruct (ensure_page _ _ _ _ _ m) as [[r m1] t1].
  now destruct r.
Qed.


Lemma upper_access_verifies
    (P : platform) (T : tunables) (bus : nat -> reply) (data : list Z)
    (ofs len flags : Z) (m m' : machine) (v : Z) (tr : list event) :
  is_qsfp (sfp_type (sc m)) = true ->
  session_ok (sc m) ->
  valid_request (sc m) ofs len ->
  128 <= ofs ->
  page_is_stale P T (sc m) (jiffies m) = true ->
  amzn_sfp_rw P T bus data ofs len flags m = (v, m', tr) ->
  exists rc0 rest,
    tr = EvLock :: EvTransfer PageVerify (verify_msgs (client_addr (sc m))) rc0
         :: rest.
Proof.
  intros Hq Hok Hv Hup Hst E.
  rewrite upper_access_unfold in E by assumption.
  destruct (ensure_page _ _ _ _ _ m) as [[r m1] t1] eqn:Ep.
  apply ensure_page_verify in Ep. rewrite Hst in Ep.
  destruct Ep as (rest & -> & _).
  destruct r as [e|].
  - injection E as <- <- <-. eexists _, _. reflexivity.
  - destruct (amzn_sfp_execute _ _ _ _ _ _ _ _ m1) as [[v2 m2] t2].
    injection E as <- <- <-. eexists _, _. reflexivity.
Qed.

Lemma time_in_range_backwards (a b w : Z) :
  - 4611686018427387904 < a - b < 4611686018427387904 ->
  - 2147483648 <= w < 0 ->
  time_in_range a b (to_ulong (b + w)) = false.
Proof.
  intros Ha Hw. unfold time_in_range, time_before_eq, time_after_eq.
  apply andb_false_iff.
  destruct (Z.ltb_spec (a - b) 0).
  - left. rewrite Z.geb_leb. apply Z.leb_gt. unfold to_long. dlia.
  - right. rewrite Z.geb_leb. apply Z.leb_gt. unfold to_long, to_ulong. dlia.
Qed.

(** X8.  A negative retention turns the page cache off.  When
    [amzn-sfp-page-retention] times [HZ] is a negative [int], the retention
    window is empty: every valid access at offset 128 or above reads the
    page select register first, however recent the time stamp (the clock
    within 2^62 jiffies of it). *)
Theorem negative_retention_always_verifies
    (P : platform) (T : tunables) (bus : nat -> reply) (data : list Z)
    (ofs len flags : Z) (m m' : machine) (v : Z) (tr : list event) :
  is_qsfp (sfp_type (sc m)) = true ->
  session_ok (sc m) ->
  valid_request (sc m) ofs len ->
  128 <= ofs ->
  to_int (amzn_sfp_page_retention T * HZ P) < 0 ->
  - 4611686018427387904 < jiffies m - cur_page_ts (sc m) < 4611686018427387904 ->
  amzn_sfp_rw P T bus data ofs len flags m = (v, m', tr) ->
  exists rc0 rest,
    tr = EvLock :: EvTransfer PageVerify (verify_msgs (client_addr (sc m))) rc0
         :: rest.
Proof.
  intros Hq Hok Hv Hup Hw Hd E.
  eapply upper_access_verifies; try eassumption.
  unfold page_is_stale. rewrite time_in_range_backwards; [apply orb_true_r | assumption |].
  unfold to_int in *. dlia.
Qed.

Section PageDecisions.

Variable P : platform.
Variable T : tunables.
Variable bus : nat -> reply.

Lemma ensure_page_notice (a pg : Z) (m m' : machine) r tr (o b : Z) :
  ensure_page P T bus a pg m = (r, m', tr) ->
  In (EvNotice o b) tr <->
  (page_is_stale P T (sc m) (jiffies m) = true /\
   0 <= rc (bus (ncall m)) /\
   o = to_char P (rx (bus (ncall m))) /\
   b = cur_page (sc m) /\ b <> -1 /\ o <> b).
Proof.
  destruct m as [[sz a0 t p ts] j n]. cbn [sc jiffies ncall cur_page].
  drv_run; intros X; injection X as <- <- <-; cbn [In]; bool_hyps;
    (split;
     [ intros H;
       repeat match goal with
       | H : _ \/ _ |- _ => destruct H
       | H : False |- _ => destruct H
       | H : EvNotice _ _ = EvNotice _ _ |- _ => injection H as <- <-
       | H : _ = EvNotice _ _ |- _ => discriminate H
       end; repeat split; try assumption; try reflexivity; try congruence
     | intros (H1 & H2 & -> & -> & H5 & H6);
       try (exfalso; congruence); try (exfalso; lia); auto ]).
Qed.

Lemma ensure_page_write_iff (a pg : Z) (m m' : machine) r tr :
  ensure_page P T bus a pg m = (r, m', tr) ->
  transfers PageSelect tr = [] <->
  ((page_is_stale P T (sc m) (jiffies m) = true /\ rc (bus (ncall m)) < 0) \/
   (if page_is_stale P T (sc m) (jiffies m)
    then to_char P (rx (bus (ncall m))) else cur_page (sc m)) = to_char P pg).
Proof.
  destruct m as [[sz a0 t p ts] j n]. cbn [sc jiffies ncall cur_page].
  drv_run; intros X; injection X as <- <- <-;
    cbn [transfers filter is_transfer]; bool_hyps;
    (split;
     [ intros H; try discriminate H;
       solve [ left; split; [reflexivity | assumption]
             | right; congruence ]
     | intros [[H1 H2] | H]; try reflexivity; exfalso;
       try discriminate; try lia; congruence ]).
Qed.

Lemma execute_has_no_notice (a r l fl : Z) (data : list Z) (m m' : machine)
    (v : Z) (tr : list event) (o b : Z) :
  amzn_sfp_execute P T bus a r l fl data m = (v, m', tr) ->
  ~ In (EvNotice o b) tr.
Proof.
  intros E H. apply execute_spec in E. destruct E as (_ & rp & -> & _).
  apply in_app_or in H. destruct H as [H|[H|[H|[]]]]; try discriminate.
  unfold settle_events in H.
  destruct (settle_due P T (sc m) (jiffies m)); [destruct H as [H|[]]|destruct H].
  discriminate.
Qed.

End PageDecisions.

(** X9.  The notice of a page that moved.  A valid access at offset 128 or
    above logs "resetting current page" exactly when it re-reads the page
    select register for a belief that was known (not -1) and finds another
    page there; the notice names the page found and the page believed.  The
    first read of a new session, or the read after a failure, logs
    nothing. *)
Theorem notice_reports_page_drift
    (P : platform) (T : tunables) (bus : nat -> reply) (data : list Z)
    (ofs len flags : Z) (m m' : machine) (v : Z) (tr : list event) (o b : Z) :
  is_qsfp (sfp_type (sc m)) = true ->
  session_ok (sc m) ->
  valid_request (sc m) ofs len ->
  128 <= ofs ->
  amzn_sfp_rw P T bus data ofs len flags m = (v, m', tr) ->
  In (EvNotice o b) tr <->
  (page_is_stale P T (sc m) (jiffies m) = true /\
   0 <= rc (bus (ncall m)) /\
   o = to_char P (rx (bus (ncall m))) /\
   b = cur_page (sc m) /\ b <> -1 /\ o <> b).
Proof.
  intros Hq Hok Hv Hup E.
  rewrite upper_access_unfold in E by assumption.
  destruct (ensure_page _ _ _ _ _ m) as [[r m1] t1] eqn:Ep.
  rewrite <- (ensure_page_notice _ _ _ _ _ _ _ _ _ o b Ep).
  destruct r as [e|].
  - injection E as <- <- <-. cbn [In]. split; [intros [X|X]|intros X].
    + discriminate.
    + assumption.
    + now right.
  - destruct (amzn_sfp_execute _ _ _ _ _ _ _ _ m1) as [[v2 m2] t2] eqn:Y.
    injection E as <- <- <-. cbn [In]. rewrite in_app_iff.
    pose proof (execute_has_no_notice _ _ _ _ _ _ _ _ _ _ _ _ o b Y) as Hn.
    split; [intros [X|[X|X]]|intros X].
    + discriminate.
    + assumption.
    + contradiction.
    + right. now left.
Qed.

(** X10.  The page select register is written only when it must be.  In a
    valid access at offset 128 or above, take for the page in force the one
    just read back from the register when the belief was stale, and the
    believed one otherwise.  The access writes the page select register
    unless the read-back failed or the page in force is the page wanted;
    selecting page 0 is no exception. *)
Theorem page_select_written_only_when_needed
    (P : platform) (T : tunables) (bus : nat -> reply) (data : list Z)
    (ofs len flags : Z) (m m' : machine) (v : Z) (tr : list event) :
  is_qsfp (sfp_type (sc m)) = true ->
  session_ok (sc m) ->
  valid_request (sc m) ofs len ->
  128 <= ofs ->
  amzn_sfp_rw P T bus data ofs len flags m = (v, m', tr) ->
  let stale := page_is_stale P T (sc m) (jiffies m) in
  let in_force := if stale then to_char P (rx (bus (ncall m)))
                  else cur_page (sc m) in
  transfers PageSelect tr = [] <->
  ((stale = true /\ rc (bus (ncall m)) < 0) \/
   in_force = to_char P (ofs / 128 - 1)).
Proof.
  intros Hq Hok Hv Hup E stale in_force.
  rewrite upper_access_unfold in E by assumption.
  destruct (ensure_page _ _ _ _ _ m) as [[r m1] t1] eqn:Ep.
  subst stale in_force.
  rewrite <- (ensure_page_write_iff _ _ _ _ _ _ _ _ _ Ep).
  destruct r as [e|].
  - injection E as <- <- <-. change (EvLock :: t1) with ([EvLock] ++ t1).
    now rewrite transfers_app.
  - destruct (amzn_sfp_execute _ _ _ _ _ _ _ _ m1) as [[v2 m2] t2] eqn:Y.
    injection E as <- <- <-. apply execute_data in Y.
    destruct Y as (_ & rc1 & _ & _ & _ & Hps & _).
    change (EvLock :: ?x) with ([EvLock] ++ x).
    rewrite !transfers_app, Hps, app_nil_r. reflexivity.
Qed.

(** ** The flat file *)

Lemma to_char_injective (P : platform) (x y : Z) :
  0 <= x < 256 -> 0 <= y < 256 -> to_char P x = to_char P y -> x = y.
Proof.
  intros Hx Hy E. rewrite <- (page_byte P x Hx), <- (page_byte P y Hy).
  now rewrite E.
Qed.

Lemma data_msgs_addr (a fl r n : Z) (data : list Z) :
  msgs_addr (data_msgs a fl r n data) = Some a.
Proof. unfold data_msgs. now destruct (fl =? I2C_M_RD). Qed.

(** Where the data phase of a valid request goes: the bus address and the
    register of its transfer and, for the upper half of a QSFP module, the
    page the session believes selected when the access is over. *)
Lemma access_target
    (P : platform) (T : tunables) (bus : nat -> reply) (data : list Z)
    (ofs len flags : Z) (m m' : machine) (v : Z) (tr : list event)
    (msgs : list i2c_msg) (rc0 : Z) :
  session_ok (sc m) ->
  valid_request (sc m) ofs len ->
  amzn_sfp_rw P T bus data ofs len flags m = (v, m', tr) ->
  In (EvTransfer DataPhase msgs rc0) tr ->
  (sfp_type (sc m) = AMZN_SFP_TYPE_SFP_PLUS ->
   msgs_addr msgs = Some (client_addr (sc m) + ofs / 256) /\
   msgs_reg msgs = Some (ofs mod 256)) /\
  (is_qsfp (sfp_type (sc m)) = true ->
   msgs_addr msgs = Some (client_addr (sc m)) /\
   (ofs < 128 -> msgs_reg msgs = Some ofs) /\
   (128 <= ofs ->
    msgs_reg msgs = Some (ofs mod 128 + 128) /\
    cur_page (sc m') = to_char P (ofs / 128 - 1))).
Proof.
  intros Hok Hv E Hin.
  pose proof (session_size_bound _ Hok) as Hsz.
  pose proof (probe_size_bound (sfp_type (sc m))) as Hps.
  pose proof Hok as [Hsize Haddr]. rewrite <- Hsize in Hps.
  rewrite rw_unfold, (request_check_valid _ _ _ Hv Hsz), translate_unfold in E.
  destruct Hv as (Ho & Hl & Hs).
  assert (G : forall a r l t1 m1,
             (let '(v0, m2, t2) := amzn_sfp_execute P T bus a r l flags data m1 in
              (v0, m2, EvLock :: t1 ++ t2)) = (v, m', tr) ->
             transfers DataPhase t1 = [] -> 0 < l ->
             msgs_addr msgs = Some a /\ msgs_reg msgs = Some r /\
             sc m' = sc m1).
  { intros a r l t1 m1 X Ht1 Hpos.
    destruct (amzn_sfp_execute _ _ _ _ _ _ _ _ m1) as [[v2 m2] t2] eqn:Y.
    injection X as <- <- <-. apply execute_data in Y.
    destruct Y as (Hsc & rc1 & Hd & _).
    destruct Hin as [X|X]; [discriminate|].
    apply in_app_or in X. destruct X as [X|X];
      [exfalso; exact (not_in_empty_transfers _ _ _ _ Ht1 X)|].
    apply in_transfers in X. rewrite Hd in X. destruct X as [X|[]].
    apply (f_equal (fun e => match e with
                             | EvTransfer _ ms _ => ms
                             | _ => []
                             end)) in X.
    cbv beta iota in X. subst msgs.
    destruct (data_msgs_obs a flags r (chunk l) data) as (Hr & _);
      [rewrite chunk_spec; lia|].
    rewrite data_msgs_addr. repeat split; assumption. }
  destruct (sfp_type (sc m) =? AMZN_SFP_TYPE_SFP_PLUS) eqn:Et.
  { apply G in E; [|reflexivity|].
    2:{ apply clamp_to_positive; [lia | unfold to_u8; dlia | lia]. }
    destruct E as (Ha & Hr & _).
    assert (Hq : is_qsfp (sfp_type (sc m)) = false)
      by (apply Z.eqb_eq in Et; now rewrite Et).
    rewrite Hsize in *. unfold probe_size in *. rewrite Et in *.
    change (2 * AMZN_SFP_FULL_SIZE) with 512 in *.
    split; [|intros; congruence]. intros _.
    rewrite Ha, Hr. unfold to_u16, to_u8. split; f_equal.
    - apply Z.mod_small. dlia.
    - apply Z.mod_mod. lia. }
  split; [intros H; exfalso; apply Z.eqb_neq in Et; contradiction|].
  intros Hq. rewrite Hq in E.
  rewrite Hsize in *. unfold probe_size in *. rewrite Et, Hq in *.
  change (257 * AMZN_SFP_HALF_SIZE) with 32896 in *.
  destruct (ofs <? 128) eqn:Eo; bool_hyps.
  - apply G in E; [|reflexivity|].
    2:{ apply clamp_to_positive; [lia | unfold to_u8; dlia | lia]. }
    destruct E as (Ha & Hr & _).
    split; [assumption|]. split; [|intros; lia].
    intros _. rewrite Hr. unfold to_u8. f_equal. apply Z.mod_small. lia.
  - destruct (ensure_page _ _ _ _ _ m) as [[r m1] t1] eqn:Ep.
    pose proof (ensure_page_frame _ _ _ _ _ _ _ _ _ Ep) as (_ & _ & _ & Hd1 & _).
    destruct r as [e|].
    + injection E as <- <- <-. exfalso.
      destruct Hin as [X|X]; [discriminate|].
      exact (not_in_empty_transfers _ _ _ _ Hd1 X).
    + apply G in E; [|assumption|].
      2:{ apply clamp_to_positive; [lia | unfold to_u8; dlia | lia]. }
      destruct E as (Ha & Hr & Hsc).
      split; [assumption|]. split; [intros; lia|]. intros _. split.
      * rewrite Hr. unfold to_u8. f_equal. apply Z.mod_small. dlia.
      * rewrite Hsc. now apply ensure_page_done in Ep.
Qed.

(** X11.  The flat file does not alias.  On QSFP-family sessions, the data
    phases of two valid requests that meet at the same register and, in the
    upper half, on the same believed page, come from the same offset: every
    byte of the module has one offset.  The same holds on SFP_PLUS sessions
    with one base address for the bus address and the register. *)
Theorem offsets_do_not_alias
    (P : platform) (T1 T2 : tunables) (bus1 bus2 : nat -> reply)
    (data1 data2 : list Z) (ofs1 len1 flags1 ofs2 len2 flags2 : Z)
    (m1 m1' m2 m2' : machine) (v1 v2 : Z) (tr1 tr2 : list event)
    (msgs1 msgs2 : list i2c_msg) (rc1 rc2 : Z) :
  session_ok (sc m1) -> session_ok (sc m2) ->
  valid_request (sc m1) ofs1 len1 -> valid_request (sc m2) ofs2 len2 ->
  amzn_sfp_rw P T1 bus1 data1 ofs1 len1 flags1 m1 = (v1, m1', tr1) ->
  amzn_sfp_rw P T2 bus2 data2 ofs2 len2 flags2 m2 = (v2, m2', tr2) ->
  In (EvTransfer DataPhase msgs1 rc1) tr1 ->
  In (EvTransfer DataPhase msgs2 rc2) tr2 ->
  msgs_reg msgs1 = msgs_reg msgs2 ->
  (is_qsfp (sfp_type (sc m1)) = true -> is_qsfp (sfp_type (sc m2)) = true ->
   (128 <= ofs1 -> cur_page (sc m1') = cur_page (sc m2')) ->
   ofs1 = ofs2) /\
  (sfp_type (sc m1) = AMZN_SFP_TYPE_SFP_PLUS ->
   sfp_type (sc m2) = AMZN_SFP_TYPE_SFP_PLUS ->
   client_addr (sc m1) = client_addr (sc m2) ->
   msgs_addr msgs1 = msgs_addr msgs2 ->
   ofs1 = ofs2).
Proof.
  intros Hok1 Hok2 Hv1 Hv2 E1 E2 Hin1 Hin2 Hreg.
  pose proof (access_target _ _ _ _ _ _ _ _ _ _ _ _ _ Hok1 Hv1 E1 Hin1)
    as [Hs1 Hq1].
  pose proof (access_target _ _ _ _ _ _ _ _ _ _ _ _ _ Hok2 Hv2 E2 Hin2)
    as [Hs2 Hq2].
  split.
  - intros Q1 Q2 Hpage.
    pose proof (qsfp_session_size _ Hok1 Q1) as Z1.
    pose proof (qsfp_session_size _ Hok2 Q2) as Z2.
    destruct Hv1 as (Ho1 & _). destruct Hv2 as (Ho2 & _).
    rewrite Z1 in Ho1. rewrite Z2 in Ho2.
    destruct (Hq1 Q1) as (_ & L1 & U1). destruct (Hq2 Q2) as (_ & L2 & U2).
    destruct (Z.ltb_spec ofs1 128) as [A|A];
      destruct (Z.ltb_spec ofs2 128) as [B|B].
    + rewrite (L1 A), (L2 B) in Hreg. congruence.
    + rewrite (L1 A) in Hreg. destruct (U2 B) as [R2 _].
      rewrite R2 in Hreg. injection Hreg as Hreg. dlia.
    + rewrite (L2 B) in Hreg. destruct (U1 A) as [R1 _].
      rewrite R1 in Hreg. injection Hreg as Hreg. dlia.
    + destruct (U1 A) as [R1 C1]. destruct (U2 B) as [R2 C2].
      rewrite R1, R2 in Hreg. injection Hreg as Hreg.
      rewrite C1, C2 in Hpage.
      assert (Hp : ofs1 / 128 - 1 = ofs2 / 128 - 1)
        by (apply (to_char_injective P); [dlia | dlia | now apply Hpage]).
      dlia.
  - intros S1 S2 Hbase Haddr.
    destruct (Hs1 S1) as [A1 R1]. destruct (Hs2 S2) as [A2 R2].
    rewrite A1, A2 in Haddr. rewrite R1, R2 in Hreg.
    injection Haddr as Haddr. injection Hreg as Hreg. dlia.
Qed.

(** ** Attach, detach, load, unload *)

Lemma sysfs_remove_added (n : String.string) (dir : list Lifecycle.bin_file)
    (f : Lifecycle.bin_file) :
  Lifecycle.file_name f = n ->
  Lifecycle.sysfs_remove n (dir ++ [f]) = Lifecycle.sysfs_remove n dir.
Proof.
  intros <-. unfold Lifecycle.sysfs_remove. rewrite filter_app. cbn [filter].
  rewrite String.eqb_refl. cbn [negb]. apply app_nil_r.
Qed.

Lemma sysfs_remove_absent (n : String.string) (dir : list Lifecycle.bin_file) :
  Forall (fun f => Lifecycle.file_name f <> n) dir ->
  Lifecycle.sysfs_remove n dir = dir.
Proof.
  unfold Lifecycle.sysfs_remove. induction 1 as [|f dir Hf _ IH]; [reflexivity|].
  cbn [filter].
  replace (String.eqb (Lifecycle.file_name f) n) with false
    by (symmetry; now apply String.eqb_neq).
  cbn [negb]. now rewrite IH.
Qed.

Lemma probe_session_ok (a dd : Z) :
  0 <= a <= 1023 -> session_ok (amzn_sfp_probe a dd).
Proof. intros H. split; [reflexivity | exact H]. Qed.

(** X12.  When [amzn_sfp_probe] returns 0, the client data is a new session
    for the class of the id at the address of the client, with the page
    unknown; the directory of the device has gained one file, "eeprom", that
    its owner may write and everyone may read, of the size of the session:
    512 bytes for SFP_PLUS, 257 * 128 for the QSFP family, 256 otherwise.
    The session is one the theorems on accesses apply to. *)
Theorem probe_makes_a_session
    (alloc_ok : bool) (create_rc : Z) (client client' : option Lifecycle.i2c_client)
    (id : option Lifecycle.i2c_device_id) :
  Lifecycle.amzn_sfp_probe_client alloc_ok create_rc client id = (0, client') ->
  exists c i c' s,
    client = Some c /\ id = Some i /\ client' = Some c' /\
    alloc_ok = true /\ create_rc = 0 /\
    s = amzn_sfp_probe (Lifecycle.i2c_addr c) (Lifecycle.driver_data i) /\
    Lifecycle.clientdata c' = Some s /\
    cur_page s = -1 /\
    Lifecycle.i2c_addr c' = Lifecycle.i2c_addr c /\
    Lifecycle.sysfs c' =
      Lifecycle.sysfs c
      ++ [ {| Lifecycle.file_name := Lifecycle.eeprom;
              Lifecycle.file_mode := 420;
              Lifecycle.file_size := attr_size s |} ] /\
    attr_size s =
      (if sfp_type s =? AMZN_SFP_TYPE_SFP_PLUS then 512
       else if is_qsfp (sfp_type s) then 32896 else 256) /\
    (0 <= Lifecycle.i2c_addr c <= 1023 -> session_ok s).
Proof.
  unfold Lifecycle.amzn_sfp_probe_client.
  destruct client as [c|]; [|discriminate].
  destruct id as [i|]; [|discriminate].
  destruct alloc_ok; cbn [negb]; [|discriminate].
  destruct (create_rc =? 0) eqn:Ec.
  - intros X. injection X as <-. apply Z.eqb_eq in Ec.
    eexists c, i, _, _.
    repeat (split; [reflexivity || assumption|]).
    exact H.
  - intros X. injection X as X _. apply Z.eqb_neq in Ec. contradiction.
Qed.

(** X13.  When [amzn_sfp_probe] fails it adds no file.  A null client or id
    gives [-EINVAL] and a failed allocation [-ENOMEM], the client untouched;
    when [sysfs_create_bin_file] fails its error is returned and logged, and
    the client data stays set to the session that was made. *)
Theorem probe_failure_adds_no_file
    (alloc_ok : bool) (create_rc rc : Z)
    (client client' : option Lifecycle.i2c_client)
    (id : option Lifecycle.i2c_device_id) :
  Lifecycle.amzn_sfp_probe_client alloc_ok create_rc client id = (rc, client') ->
  rc <> 0 ->
  option_map Lifecycle.sysfs client' = option_map Lifecycle.sysfs client /\
  (client = None \/ id = None -> rc = - EINVAL /\ client' = client) /\
  (client <> None -> id <> None -> alloc_ok = false ->
   rc = - Lifecycle.ENOMEM /\ client' = client) /\
  (client <> None -> id <> None -> alloc_ok = true ->
   rc = create_rc /\
   exists c i c',
     client = Some c /\ id = Some i /\ client' = Some c' /\
     Lifecycle.clientdata c' =
       Some (amzn_sfp_probe (Lifecycle.i2c_addr c) (Lifecycle.driver_data i)) /\
     last (Lifecycle.dmesg c') (Lifecycle.ErrCreateFile 0)
     = Lifecycle.ErrCreateFile create_rc).
Proof.
  unfold Lifecycle.amzn_sfp_probe_client.
  destruct client as [c|]; [destruct id as [i|]|].
  - destruct alloc_ok; cbn [negb].
    + destruct (create_rc =? 0) eqn:Ec.
      * intros X H. injection X as <- _. contradiction.
      * intros X _. injection X as <- <-. split; [reflexivity|].
        split; [intros [H|H]; discriminate|].
        split; [intros; discriminate|]. intros _ _ _.
        split; [reflexivity|]. eexists c, i, _.
        repeat split; try reflexivity. cbn [Lifecycle.dmesg].
        apply last_last.
    + intros X _. injection X as <- <-. split; [reflexivity|].
      split; [intros [H|H]; discriminate|].
      split; [now intros|]. intros; discriminate.
  - intros X _. injection X as <- <-. split; [reflexivity|].
    split; [now intros|]. split; intros _ H; now contradiction H.
  - intros X _. assert (rc = - EINVAL /\ client' = None) as [-> ->]
      by (destruct id; injection X as <- <-; now split).
    split; [reflexivity|]. split; [now intros|].
    split; intros H; now contradiction H.
Qed.

(** X14.  The ids of the table lead to the classes the driver knows: probing
    any client with any of them succeeds (memory and sysfs willing) without
    the warning for an unknown class, and makes a file of 512 bytes for
    "sfp+" and of 257 * 128 bytes for the other three.  The class without
    translation is out of reach of the table. *)
Theorem table_ids_are_known :
  Forall
    (fun i =>
       forall c : Lifecycle.i2c_client,
       exists c' s,
         Lifecycle.amzn_sfp_probe_client true 0 (Some c) (Some i) = (0, Some c') /\
         Lifecycle.clientdata c' = Some s /\
         Lifecycle.dmesg c' = Lifecycle.dmesg c /\
         Lifecycle.is_known (sfp_type s) = true /\
         attr_size s = (if is_qsfp (sfp_type s) then 32896 else 512))
    Lifecycle.amzn_sfp_ids.
Proof.
  repeat constructor; intros c; eexists _, _;
    (split; [reflexivity|]); repeat split.
Qed.

(** X15.  Attach, then detach.  After a probe that returned 0,
    [amzn_sfp_remove] returns 0 and leaves the client without client data
    and without a file named "eeprom" (as it was before the probe, when it
    had no such file); a second [amzn_sfp_remove] finds no client data,
    returns [-ENODEV] and changes nothing. *)
Theorem probe_then_remove
    (alloc_ok : bool) (create_rc : Z) (c c1 : Lifecycle.i2c_client)
    (id : option Lifecycle.i2c_device_id) :
  Lifecycle.amzn_sfp_probe_client alloc_ok create_rc (Some c) id = (0, Some c1) ->
  exists c2,
    Lifecycle.amzn_sfp_remove (Some c1) = (0, Some c2) /\
    Lifecycle.i2c_addr c2 = Lifecycle.i2c_addr c /\
    Lifecycle.clientdata c2 = None /\
    Lifecycle.sysfs c2 = Lifecycle.sysfs_remove Lifecycle.eeprom (Lifecycle.sysfs c) /\
    (Forall (fun f => Lifecycle.file_name f <> Lifecycle.eeprom) (Lifecycle.sysfs c) ->
     Lifecycle.sysfs c2 = Lifecycle.sysfs c) /\
    Lifecycle.amzn_sfp_remove (Some c2) = (- Lifecycle.ENODEV, Some c2).
Proof.
  intros E. apply probe_makes_a_session in E.
  destruct E as (c0 & i & c' & s & Hc & _ & Hc' & _ & _ & _ & Hd & _ & Ha & Hs & _).
  injection Hc as <-. injection Hc' as <-.
  unfold Lifecycle.amzn_sfp_remove. rewrite Hd.
  eexists. split; [reflexivity|]. cbn [Lifecycle.i2c_addr Lifecycle.clientdata
                                         Lifecycle.sysfs].
  rewrite Hs, sysfs_remove_added by reflexivity.
  repeat split; try assumption.
  apply sysfs_remove_absent.
Qed.

Lemma exit_removes_driver (l : list String.string) :
  ~ In Lifecycle.driver_name l ->
  filter (fun n => negb (String.eqb n Lifecycle.driver_name))
    (l ++ [Lifecycle.driver_name]) = l.
Proof.
  intros Hn. rewrite filter_app. cbn [filter]. rewrite String.eqb_refl.
  cbn [negb]. rewrite app_nil_r.
  induction l as [|x l IH]; [reflexivity|]. cbn [filter].
  replace (String.eqb x Lifecycle.driver_name) with false
    by (symmetry; apply String.eqb_neq; intros ->; apply Hn; now left).
  cbn [negb]. rewrite IH; [reflexivity|]. intros H. apply Hn. now right.
Qed.

(** X16.  Unloading takes the I2C driver away and nothing else.  Every load
    registers the sysctl table under "debug" when [register_sysctl] gives a
    header, also a load that fails in [i2c_add_driver], and no unload takes
    it back: after any number of loads and unloads the kernel has its I2C
    drivers as before and one more copy of the table for each such load
    (none without [CONFIG_SYSCTL]). *)
Theorem sysctl_tables_pile_up
    (config_sysctl : bool) (answers : list (Z * bool)) (k : Lifecycle.kernel) :
  ~ In Lifecycle.driver_name (Lifecycle.i2c_drivers k) ->
  Lifecycle.i2c_drivers (Lifecycle.load_unload config_sysctl answers k)
  = Lifecycle.i2c_drivers k /\
  Lifecycle.sysctl_tables (Lifecycle.load_unload config_sysctl answers k)
  = Lifecycle.sysctl_tables k
    ++ repeat Lifecycle.sysctl_entry
         (if config_sysctl then length (filter snd answers) else 0%nat).
Proof.
  revert k. induction answers as [|[add_rc ok] rest IH]; intros k Hn.
  - cbn. split; [reflexivity|]. destruct config_sysctl; now rewrite app_nil_r.
  - cbn [Lifecycle.load_unload Lifecycle.amzn_sfp_init].
    destruct (add_rc =? 0) eqn:Ea.
    + destruct (IH (Lifecycle.amzn_sfp_exit
                      {| Lifecycle.i2c_drivers :=
                           Lifecycle.i2c_drivers k ++ [Lifecycle.driver_name];
                         Lifecycle.sysctl_tables :=
                           if config_sysctl && ok
                           then Lifecycle.sysctl_tables k ++ [Lifecycle.sysctl_entry]
                           else Lifecycle.sysctl_tables k |})) as [H1 H2].
      { cbn [Lifecycle.amzn_sfp_exit Lifecycle.i2c_drivers].
        now rewrite exit_removes_driver. }
      rewrite H1, H2.
      cbn [Lifecycle.amzn_sfp_exit Lifecycle.i2c_drivers Lifecycle.sysctl_tables].
      split; [now apply exit_removes_driver|].
      cbn [filter snd]. destruct config_sysctl, ok; cbn [andb length repeat];
        try reflexivity. now rewrite <- app_assoc.
    + destruct (IH {| Lifecycle.i2c_drivers := Lifecycle.i2c_drivers k;
                      Lifecycle.sysctl_tables :=
                        if config_sysctl && ok
                        then Lifecycle.sysctl_tables k ++ [Lifecycle.sysctl_entry]
                        else Lifecycle.sysctl_tables k |}) as [H1 H2];
        [assumption|].
      rewrite H1, H2. cbn [Lifecycle.i2c_drivers Lifecycle.sysctl_tables].
      split; [reflexivity|].
      cbn [filter snd]. destruct config_sysctl, ok; cbn [andb length repeat];
        try reflexivity. now rewrite <- app_assoc.
Qed.

(** X17.  The first access of a new session to the upper half.  A session
    of the QSFP family that [amzn_sfp_probe] has just made reads the page
    select register before anything else on the bus, whatever the clock
    says, also while it is within the retention window of the zeroed time
    stamp. *)
Theorem new_session_verifies_first
    (P : platform) (T : tunables) (bus : nat -> reply) (data : list Z)
    (c c' : Lifecycle.i2c_client) (i : Lifecycle.i2c_device_id)
    (s : amzn_sfp_softc) (now : Z) (calls : nat)
    (ofs len flags : Z) (m' : machine) (v : Z) (tr : list event) :
  0 <= Lifecycle.i2c_addr c <= 1023 ->
  Lifecycle.amzn_sfp_probe_client true 0 (Some c) (Some i) = (0, Some c') ->
  Lifecycle.clientdata c' = Some s ->
  is_qsfp (sfp_type s) = true ->
  valid_request s ofs len ->
  128 <= ofs ->
  amzn_sfp_rw P T bus data ofs len flags
    {| sc := s; jiffies := now; ncall := calls |} = (v, m', tr) ->
  exists rc0 rest,
    tr = EvLock :: EvTransfer PageVerify (verify_msgs (Lifecycle.i2c_addr c)) rc0
         :: rest.
Proof.
  intros Ha Ep Hd Hq Hv Hup E.
  apply probe_makes_a_session in Ep.
  destruct Ep as (c0 & i0 & c1 & s0 & Hc & Hi & Hc' & _ & _ & Hs & Hd0 & Hp & _).
  injection Hc as <-. injection Hi as <-. injection Hc' as <-.
  rewrite Hd in Hd0. injection Hd0 as <-.
  assert (Hok : session_ok s) by (subst s; now apply probe_session_ok).
  replace (Lifecycle.i2c_addr c) with (client_addr s) by now subst s.
  eapply (upper_access_verifies P T bus data ofs len flags
            {| sc := s; jiffies := now; ncall := calls |});
    try eassumption.
  unfold page_is_stale. cbn [sc]. rewrite Hp. reflexivity.
Qed.

(** ** These theorems at concrete inputs *)

Lemma access_events_in_order_witness :
  let m := attached (amzn_sfp_probe 80 AMZN_SFP_TYPE_QSFP28) 1000 in
  let out := amzn_sfp_read x86_64 default_tunables (bus_ok 2 1) [] 200 50 m in
  hd_error (snd out) = Some EvLock /\ last (snd out) EvLock = EvUnlock /\
  StronglySorted Z.lt (map rank (snd out)).
Proof.
  intros m out.
  destruct (access_events_in_order x86_64 default_tunables (bus_ok 2 1) []
              200 50 I2C_M_RD m (snd (fst out)) (fst (fst out)) (snd out)
              eq_refl) as [[H _]|[_ H]].
  - exfalso. apply H. reflexivity.
  - exact H.
Defined.

Lemma access_returns_error_or_progress_witness :
  let m := attached (amzn_sfp_probe 80 AMZN_SFP_TYPE_SFP_PLUS) 1000 in
  let out := amzn_sfp_read x86_64 default_tunables (bus_ok 2 0) []
               1 18446744073709551615 m in
  fst (fst out) < 0 \/ 1 <= fst (fst out) <= 64.
Proof.
  intros m out.
  apply (access_returns_error_or_progress x86_64 default_tunables (bus_ok 2 0)
           [] 1 18446744073709551615 I2C_M_RD m (snd (fst out))
           (fst (fst out)) (snd out)); [lia | lia | reflexivity].
Defined.

Lemma belief_stays_in_range_witness :
  let r := {| rq_tun := default_tunables; rq_data := []; rq_ofs := 32768;
              rq_len := 1; rq_flags := I2C_M_RD; rq_idle := 10 |} in
  let m := attached (amzn_sfp_probe 80 AMZN_SFP_TYPE_QSFP28) 1000 in
  belief_in_range x86_64 (sc (serve x86_64 (bus_ok 2 200) [r; r] m)) /\
  stamp_in_range (sc (serve x86_64 (bus_ok 2 200) [r; r] m)).
Proof.
  intros r m.
  apply (proj2 (belief_stays_in_range x86_64 (bus_ok 2 200) [r; r]) m).
  apply (proj1 (belief_stays_in_range x86_64 (bus_ok 2 200) [r; r]) 80
           AMZN_SFP_TYPE_QSFP28).
Defined.

Lemma data_phase_on_the_wire_witness :
  let m := attached (amzn_sfp_probe 80 AMZN_SFP_TYPE_SFP_PLUS) 1000 in
  let data := [1; 2; 3; 4; 5; 6; 7; 8; 9; 10] in
  let out := amzn_sfp_write x86_64 default_tunables (bus_ok 1 0) data 250 10 m in
  let msgs := data_msgs 80 0 250 6 data in
  In (EvTransfer DataPhase msgs 1) (snd out) /\
  exists a r n,
    1 <= n <= 64 /\ n <= 10 /\
    (0 = I2C_M_RD ->
     msgs = [ {| addr := a; flags := 0; len := 1; buf := [r] |};
              {| addr := a; flags := I2C_M_RD; len := n; buf := [] |} ]) /\
    (0 <> I2C_M_RD ->
     msgs = [ {| addr := a; flags := 0; len := n + 1;
                 buf := r :: firstn (Z.to_nat n) data |} ] /\
     (10 <= Z.of_nat (length data) ->
      Z.of_nat (length (r :: firstn (Z.to_nat n) data)) = n + 1)).
Proof.
  intros m data out msgs.
  assert (Hin : In (EvTransfer DataPhase msgs 1) (snd out))
    by (right; left; reflexivity).
  split; [exact Hin|].
  apply (data_phase_on_the_wire x86_64 default_tunables (bus_ok 1 0) data
           250 10 0 m (snd (fst out)) (fst (fst out)) (snd out) msgs 1).
  - split; [reflexivity | cbn; lia].
  - unfold valid_request; cbn; lia.
  - reflexivity.
  - exact Hin.
Defined.

Lemma data_phase_return_value_witness :
  let m := attached (amzn_sfp_probe 80 AMZN_SFP_TYPE_SFP_PLUS) 1000 in
  let out := amzn_sfp_read x86_64 default_tunables (bus_ok 1 0) [] 250 10 m in
  let msgs := data_msgs 80 I2C_M_RD 250 6 [] in
  fst (fst out) = - EPIPE.
Proof.
  intros m out msgs.
  assert (Hok : session_ok (sc m)) by (split; [reflexivity | cbn; lia]).
  assert (Hv : valid_request (sc m) 250 10) by (unfold valid_request; cbn; lia).
  assert (Hin : In (EvTransfer DataPhase msgs 1) (snd out))
    by (right; left; reflexivity).
  destruct (data_phase_return_value x86_64 default_tunables (bus_ok 1 0) []
              250 10 I2C_M_RD m (snd (fst out)) (fst (fst out)) (snd out)
              msgs 1 Hok Hv eq_refl Hin) as (_ & _ & H & _).
  apply H; [lia | discriminate].
Defined.


Lemma negative_retention_always_verifies_witness :
  let T := {| amzn_sfp_page_retention := -1; amzn_sfp_page_load_wait_ms := 4 |} in
  let m := attached (qsfp28_on_page 1 1000) 1000 in
  let out := amzn_sfp_read x86_64 T (bus_ok 2 1) [] 300 4 m in
  exists rc0 rest,
    snd out = EvLock :: EvTransfer PageVerify (verify_msgs 80) rc0 :: rest.
Proof.
  intros T m out.
  apply (negative_retention_always_verifies x86_64 T (bus_ok 2 1) [] 300 4
           I2C_M_RD m (snd (fst out)) (fst (fst out)) (snd out)).
  - reflexivity.
  - split; [reflexivity | cbn; lia].
  - unfold valid_request; cbn; lia.
  - lia.
  - vm_compute. reflexivity.
  - cbn. lia.
  - reflexivity.
Defined.

Lemma offsets_do_not_alias_witness :
  let m := attached (amzn_sfp_probe 80 AMZN_SFP_TYPE_SFP_PLUS) 1000 in
  let out1 := amzn_sfp_read x86_64 default_tunables (bus_ok 2 0) [] 300 4 m in
  let out2 := amzn_sfp_write x86_64 default_tunables (bus_ok 1 0) [7; 8] 300 2 m in
  In (EvTransfer DataPhase (data_msgs 81 I2C_M_RD 44 4 []) 2) (snd out1) /\
  In (EvTransfer DataPhase (data_msgs 81 0 44 2 [7; 8]) 1) (snd out2) /\
  300 = 300.
Proof.
  intros m out1 out2.
  split; [right; left; reflexivity|]. split; [right; left; reflexivity|].
  refine (proj2 (offsets_do_not_alias x86_64 default_tunables default_tunables
                   (bus_ok 2 0) (bus_ok 1 0) [] [7; 8] 300 4 I2C_M_RD 300 2 0
                   m (snd (fst out1)) m (snd (fst out2))
                   (fst (fst out1)) (fst (fst out2)) (snd out1) (snd out2)
                   (data_msgs 81 I2C_M_RD 44 4 []) (data_msgs 81 0 44 2 [7; 8])
                   2 1 _ _ _ _ eq_refl eq_refl _ _ eq_refl)
            eq_refl eq_refl eq_refl eq_refl).
  - split; [reflexivity | cbn; lia].
  - split; [reflexivity | cbn; lia].
  - unfold valid_request; cbn; lia.
  - unfold valid_request; cbn; lia.
  - right. left. reflexivity.
  - right. left. reflexivity.
Defined.

Lemma probe_makes_a_session_witness :
  exists c i c' s,
    Some (Lifecycle.bare_client 80) = Some c /\
    Some Lifecycle.qsfp28_id = Some i /\
    snd (Lifecycle.amzn_sfp_probe_client true 0
           (Some (Lifecycle.bare_client 80)) (Some Lifecycle.qsfp28_id))
    = Some c' /\
    true = true /\ 0 = 0 /\
    s = amzn_sfp_probe (Lifecycle.i2c_addr c) (Lifecycle.driver_data i) /\
    Lifecycle.clientdata c' = Some s /\
    cur_page s = -1 /\
    Lifecycle.i2c_addr c' = Lifecycle.i2c_addr c /\
    Lifecycle.sysfs c' =
      Lifecycle.sysfs c
      ++ [ {| Lifecycle.file_name := Lifecycle.eeprom;
              Lifecycle.file_mode := 420;
              Lifecycle.file_size := attr_size s |} ] /\
    attr_size s =
      (if sfp_type s =? AMZN_SFP_TYPE_SFP_PLUS then 512
       else if is_qsfp (sfp_type s) then 32896 else 256) /\
    (0 <= Lifecycle.i2c_addr c <= 1023 -> session_ok s).
Proof.
  apply (probe_makes_a_session true 0 (Some (Lifecycle.bare_client 80))
           (snd (Lifecycle.amzn_sfp_probe_client true 0
                   (Some (Lifecycle.bare_client 80))
                   (Some Lifecycle.qsfp28_id)))
           (Some Lifecycle.qsfp28_id)).
  reflexivity.
Defined.

Lemma probe_failure_adds_no_file_witness :
  let out := Lifecycle.amzn_sfp_probe_client true (-17)
               (Some (Lifecycle.bare_client 80)) (Some Lifecycle.qsfp28_id) in
  fst out = -17 /\
  option_map Lifecycle.sysfs (snd out) = Some [] /\
  option_map Lifecycle.clientdata (snd out)
  = Some (Some (amzn_sfp_probe 80 AMZN_SFP_TYPE_QSFP28)).
Proof.
  intros out.
  destruct (probe_failure_adds_no_file true (-17) (fst out)
              (Some (Lifecycle.bare_client 80)) (snd out)
              (Some Lifecycle.qsfp28_id) eq_refl ltac:(discriminate))
    as (Hs & _ & _ & Hc).
  destruct (Hc ltac:(discriminate) ltac:(discriminate) eq_refl) as (Hr & _).
  split; [exact Hr|]. split; [exact Hs | reflexivity].
Defined.

Lemma probe_then_remove_witness :
  let c := Lifecycle.bare_client 80 in
  exists c1 c2,
    Lifecycle.amzn_sfp_probe_client true 0 (Some c) (Some Lifecycle.qsfp28_id)
    = (0, Some c1) /\
    Lifecycle.amzn_sfp_remove (Some c1) = (0, Some c2) /\
    c2 = c /\
    Lifecycle.amzn_sfp_remove (Some c2) = (- Lifecycle.ENODEV, Some c2).
Proof.
  intros c.
  destruct (probe_then_remove true 0 c _ (Some Lifecycle.qsfp28_id) eq_refl)
    as (c2 & H1 & _ & _ & _ & _ & H6).
  eexists _, c2. split; [reflexivity|]. split; [exact H1|].
  split; [|exact H6]. vm_compute in H1. now injection H1 as <-.
Defined.

Lemma sysctl_tables_pile_up_witness :
  let k := Lifecycle.load_unload true [(0, true); (-16, true); (0, true)]
             Lifecycle.empty_kernel in
  Lifecycle.i2c_drivers k = [] /\
  Lifecycle.sysctl_tables k
  = [Lifecycle.sysctl_entry; Lifecycle.sysctl_entry; Lifecycle.sysctl_entry].
Proof.
  intros k.
  apply (sysctl_tables_pile_up true [(0, true); (-16, true); (0, true)]
           Lifecycle.empty_kernel).
  intros [].
Defined.

Lemma new_session_verifies_first_witness :
  let c := Lifecycle.bare_client 80 in
  let s := amzn_sfp_probe 80 AMZN_SFP_TYPE_QSFP28 in
  let out := amzn_sfp_read x86_64 default_tunables (bus_ok 2 0) [] 128 1
               {| sc := s; jiffies := 100; ncall := 0 |} in
  exists rc0 rest,
    snd out = EvLock :: EvTransfer PageVerify (verify_msgs 80) rc0 :: rest.
Proof.
  intros c s out.
  pose (c' := match snd (Lifecycle.amzn_sfp_probe_client true 0 (Some c)
                           (Some Lifecycle.qsfp28_id)) with
              | Some x => x
              | None => c
              end).
  apply (new_session_verifies_first x86_64 default_tunables (bus_ok 2 0) []
           c c' Lifecycle.qsfp28_id s 100 0%nat 128 1 I2C_M_RD
           (snd (fst out)) (fst (fst out)) (snd out)).
  - cbn. lia.
  - reflexivity.
  - reflexivity.
  - reflexivity.
  - unfold valid_request; cbn; lia.
  - lia.
  - reflexivity.
Defined.

Lemma notice_reports_page_drift_witness :
  let m := attached (qsfp28_on_page 2 1000) 2000 in
  let out := amzn_sfp_read x86_64 default_tunables (bus_ok 2 0) [] 128 1 m in
  In (EvNotice 0 2) (snd out).
Proof.
  intros m out.
  assert (Hok : session_ok (sc m)) by (split; [reflexivity | cbn; lia]).
  assert (Hv : valid_request (sc m) 128 1) by (unfold valid_request; cbn; lia).
  assert (Hup : 128 <= 128) by lia.
  apply (proj2 (notice_reports_page_drift x86_64 default_tunables (bus_ok 2 0)
                  [] 128 1 I2C_M_RD m (snd (fst out)) (fst (fst out))
                  (snd out) 0 2 eq_refl Hok Hv Hup eq_refl)).
  split; [reflexivity|]. split; [unfold bus_ok; cbn [rc]; lia|].
  repeat split; discriminate.
Defined.

Lemma page_select_written_only_when_needed_witness :
  let m := attached (qsfp28_on_page 1 1000) 1000 in
  let out := amzn_sfp_read x86_64 default_tunables (bus_ok 2 0) [] 300 4 m in
  transfers PageSelect (snd out) = [].
Proof.
  intros m out.
  assert (Hok : session_ok (sc m)) by (split; [reflexivity | cbn; lia]).
  assert (Hv : valid_request (sc m) 300 4) by (unfold valid_request; cbn; lia).
  assert (Hup : 128 <= 300) by lia.
  apply (proj2 (page_select_written_only_when_needed x86_64 default_tunables
                  (bus_ok 2 0) [] 300 4 I2C_M_RD m (snd (fst out))
                  (fst (fst out)) (snd out) eq_refl Hok Hv Hup eq_refl)).
  right. reflexivity.
Defined.
